(** * BenchExec: orchestrator and tool adapters

    A shallow embedding of [benchexec/__init__.py] (the benchmark
    orchestrator) and of the [determine_result] classifiers of the tool
    adapters [benchexec/tools/forest.py], [benchexec/tools/aprove.py] and
    [benchexec/tools/symbiotic3.py], followed by the properties the
    specification states about them. *)

From Stdlib Require Import ZArith Lia Bool List Ascii String DecimalString.
Import ListNotations.

Local Open Scope Z_scope.
Local Open Scope string_scope.

(** Concatenation of strings, written [+] in the sources. *)
Infix "+:+" := String.append (at level 60, right associativity).

(** * Python strings and values *)

Module Py.

(** The line feed, written ['\n'] in the sources. *)
Definition NL : string := String "010"%char EmptyString.

(** [sub in s] for two strings: [sub] occurs in [s] at some offset. *)
Fixpoint contains (sub s : string) : bool :=
  if String.prefix sub s then true
  else match s with
       | EmptyString => false
       | String _ s' => contains sub s'
       end.

(** [str.isspace] on a single character. A character of a string stands for
    the code point of the same number, so the strings of this development
    are the Python strings made of code points below 256. The ones among
    these that Python 3 counts as white space are 9 to 13, 28 to 32,
    133 (U+0085, next line) and 160 (U+00A0, no-break space); the rest of
    Unicode's white space lies from U+1680 on, and is in no string here. *)
Definition is_space (c : ascii) : bool :=
  let n := nat_of_ascii c in
  ((9 <=? n)%nat && (n <=? 13)%nat) || ((28 <=? n)%nat && (n <=? 32)%nat)
  || (n =? 133)%nat || (n =? 160)%nat.

Fixpoint lstrip (s : string) : string :=
  match s with
  | EmptyString => EmptyString
  | String c s' => if is_space c then lstrip s' else s
  end.

Fixpoint rstrip (s : string) : string :=
  match s with
  | EmptyString => EmptyString
  | String c s' =>
      match rstrip s' with
      | EmptyString => if is_space c then EmptyString else String c EmptyString
      | r => String c r
      end
  end.

(** [s.strip()] *)
Definition strip (s : string) : string := rstrip (lstrip s).

(** The no-break space and the next-line character, ['\xa0'] and ['\x85']. *)
Definition NBSP : string := String "160"%char EmptyString.
Definition NEL : string := String "133"%char EmptyString.

(** [str(n)] and ['{0}'.format(n)] for an integer. *)
Definition str_of_int (n : Z) : string := NilZero.string_of_int (Z.to_int n).

(** [sep.join(l)] for a list of strings. *)
Definition join (sep : string) (l : list string) : string := String.concat sep l.

(** The characters of a string, as Python iterates over it. *)
Fixpoint chars (s : string) : list string :=
  match s with
  | EmptyString => []
  | String c s' => String c EmptyString :: chars s'
  end.

(** Exceptions and the argument of [sys.exit]. *)
Inductive exit_arg : Type :=
| ExitNone
| ExitCode (n : Z)
| ExitMessage (msg : string).

Inductive exn : Type :=
| SystemExit (a : exit_arg)
| KeyboardInterrupt
| OSError (msg : string)
| AttributeError (msg : string)
| TypeError (msg : string)
| OtherError (msg : string).

(** A call either returns a value or raises. *)
Inductive outcome (A : Type) : Type :=
| Returns (a : A)
| Raises (e : exn).
Arguments Returns {A} a.
Arguments Raises {A} e.

Definition bind {A B} (m : outcome A) (k : A -> outcome B) : outcome B :=
  match m with
  | Returns a => k a
  | Raises e => Raises e
  end.

(** The objects an adapter can be handed as [output]. *)
Inductive value : Type :=
| VNone
| VStr (s : string)
| VList (l : list string).

(** [v is None] *)
Definition is_None (v : value) : bool :=
  match v with VNone => true | _ => false end.

(** [v == s] for a string literal [s]. *)
Definition eq_str (v : value) (s : string) : bool :=
  match v with VStr s' => String.eqb s' s | _ => false end.

(** [sub in v]: substring test on a string, membership on a list. *)
Definition py_in (sub : string) (v : value) : outcome bool :=
  match v with
  | VStr s => Returns (contains sub s)
  | VList l => Returns (existsb (String.eqb sub) l)
  | VNone => Raises (TypeError "argument of type 'NoneType' is not iterable")
  end.

(** [v.strip()] *)
Definition py_strip (v : value) : outcome value :=
  match v with
  | VStr s => Returns (VStr (strip s))
  | VList _ => Raises (AttributeError "'list' object has no attribute 'strip'")
  | VNone => Raises (AttributeError "'NoneType' object has no attribute 'strip'")
  end.

(** ['\n'.join(v)] *)
Definition py_join_lines (v : value) : outcome string :=
  match v with
  | VList l => Returns (join NL l)
  | VStr s => Returns (join NL (chars s))
  | VNone => Raises (TypeError "can only join an iterable")
  end.

End Py.
Import Py.

Declare Scope outcome_scope.
Delimit Scope outcome_scope with outcome.
Notation "x <- m ;; k" := (Py.bind m (fun x => k))
  (at level 100, m at next level, right associativity) : outcome_scope.

(** An [assert] either lets the code go on to its result or raises
    [AssertionError] with the message of the statement. *)
Inductive asserted (A : Type) : Type :=
| Passed (a : A)
| AssertionError (message : string).
Arguments Passed {A} a.
Arguments AssertionError {A} message.

(** * benchexec.result *)

Module result.

(** Modelled from the spec: [benchexec/result.py] is not among the
    sources. Its [RESULT_*] constants are the values of the closed verdict
    taxonomy of the specification; any other string an adapter returns is
    free text. *)
Inductive Verdict : Type :=
| RESULT_TRUE_PROP
| RESULT_FALSE_REACH
| RESULT_FALSE_DEREF
| RESULT_FALSE_FREE
| RESULT_FALSE_TERMINATION
| RESULT_UNKNOWN
| Text (s : string).

End result.
Import result.

(** * benchexec.tools.forest *)

Module forest.
Local Open Scope outcome_scope.

Definition determine_result (returncode returnsignal : Z) (output : value)
    (isTimeout : bool) : outcome Verdict :=
  let status := RESULT_UNKNOWN in
  b <- py_in "TRUE" output ;;
  let status := if b then RESULT_TRUE_PROP else status in
  b <- py_in "FALSE_REACH" output ;;
  let status := if b then RESULT_FALSE_REACH else status in
  b <- py_in "FALSE_DEREF" output ;;
  let status := if b then RESULT_FALSE_DEREF else status in
  b <- py_in "FALSE_FREE" output ;;
  let status := if b then RESULT_FALSE_FREE else status in
  Returns status.

Definition name : string := "Forest".

(** The tokens of the command line; [propertyfile] is put into the list as
    it comes, [None] included. *)
Definition cmdline (executable : string) (options tasks : list string)
    (propertyfile : option string) (rlimits : list (string * Z))
    : asserted (list (option string)) :=
  if (List.length tasks =? 1)%nat then
    Passed ([Some executable] ++ [Some "-propertyfile"; propertyfile]
            ++ map Some options ++ [Some "-svcomp_only_output"]
            ++ [hd None (map Some tasks)])%list
  else AssertionError "only one inputfile supported".

End forest.

(** * benchexec.tools.aprove *)

Module aprove.
Local Open Scope outcome_scope.

Definition determine_result (returncode returnsignal : Z) (output : value)
    (isTimeout : bool) : outcome Verdict :=
  output <- py_join_lines output ;;
  if contains "YES" output then Returns RESULT_TRUE_PROP
  else if contains "TRUE" output then Returns RESULT_TRUE_PROP
  else if contains "FALSE" output then Returns RESULT_FALSE_TERMINATION
  else if contains "NO" output then Returns RESULT_FALSE_TERMINATION
  else Returns RESULT_UNKNOWN.

Definition REQUIRED_PATHS : list string :=
  ["aprove.jar"; "AProVE.sh"; "bin"; "newstrategy.strategy"].

Definition name : string := "AProVE".

End aprove.

(** * os.path on a POSIX system *)

Module posixpath.

Definition is_sep (c : ascii) : bool := Ascii.eqb c "/".

(** [p.endswith('/')] *)
Fixpoint ends_with_sep (p : string) : bool :=
  match p with
  | EmptyString => false
  | String c EmptyString => is_sep c
  | String _ p' => ends_with_sep p'
  end.

(** [p == '/' * len(p)] *)
Fixpoint all_seps (p : string) : bool :=
  match p with
  | EmptyString => true
  | String c p' => is_sep c && all_seps p'
  end.

(** [p.rstrip('/')] *)
Fixpoint rstrip_seps (p : string) : string :=
  match p with
  | EmptyString => EmptyString
  | String c p' =>
      match rstrip_seps p' with
      | EmptyString => if is_sep c then EmptyString else String c EmptyString
      | r => String c r
      end
  end.

(** [p[:p.rfind('/') + 1]] *)
Fixpoint head (p : string) : string :=
  match p with
  | EmptyString => EmptyString
  | String c p' =>
      match head p' with
      | EmptyString => if is_sep c then String c EmptyString else EmptyString
      | h => String c h
      end
  end.

Definition dirname (p : string) : string :=
  let head := head p in
  if negb (String.eqb head "") && negb (all_seps head) then rstrip_seps head
  else head.

(** One round of the loop of [join]. *)
Definition join_step (path b : string) : string :=
  if String.prefix "/" b then b
  else if String.eqb path "" || ends_with_sep path then path +:+ b
  else path +:+ "/" +:+ b.

(** [join(a, *p)] *)
Definition join (a : string) (p : list string) : string := fold_left join_step p a.

End posixpath.

(** * benchexec.tools.symbiotic3 *)

Module symbiotic3.
Local Open Scope outcome_scope.

Definition determine_result (returncode returnsignal : Z) (output : value)
    (isTimeout : bool) : outcome Verdict :=
  if isTimeout then Returns (Text "timeout")
  else
    output <- py_strip output ;;
    if is_None output then Returns (Text "error (no output)")
    else if eq_str output "TRUE" then Returns RESULT_TRUE_PROP
    else if eq_str output "UNKNOWN" then Returns RESULT_UNKNOWN
    else if eq_str output "FALSE" then Returns RESULT_FALSE_REACH
    else if negb (returncode =? 0)%Z then
      Returns (Text ("Failed with returncode: " +:+ str_of_int returncode
                     +:+ " (signal: " +:+ str_of_int returnsignal +:+ ")"))
    else Returns (Text "error (unknown)").

Definition name : string := "symbiotic".

(** [options] is a list object of the caller: the call may append to it, so
    the list after the call is returned beside the result. *)
Definition cmdline (executable : string) (options tasks : list string)
    (propertyfile : option string) (rlimits : list (string * Z))
    : list string * asserted (list string) :=
  (* only one task is supported *)
  if (List.length tasks =? 1)%nat then
    let options :=
      match propertyfile with
      | Some p => (options ++ ["--prp=" +:+ p])%list
      | None => options
      end in
    (options, Passed ([executable] ++ options ++ tasks)%list)
  else (options, AssertionError "").

Definition program_files (executable : string) : list string :=
  let folder := posixpath.dirname executable in
  let make_path (f folder : string) : string := posixpath.join "." [folder; f] in
  [make_path executable "";
   make_path "build-fix.sh" folder;
   make_path "path_to_ml.pl" folder;
   make_path "bin/klee" folder;
   make_path "bin/opt" folder;
   make_path "bin/clang" folder;
   make_path "bin/llvm-link" folder;
   make_path "bin/llvm-slicer" folder;
   make_path "lib.c" folder;
   make_path "lib/libllvmdg.so" folder;
   make_path "lib/LLVMsvc15.so" folder;
   make_path "lib/klee/runtime/kleeRuntimeIntrinsic.bc" folder;
   make_path "lib32/klee/runtime/kleeRuntimeIntrinsic.bc" folder].

End symbiotic3.

(** * The orchestrator's surroundings *)

(** What lies outside the orchestrator: the state of the machine (file
    system, clock, running tools) and the objects of the collaborators. *)
Class Platform : Type := {
  Sys : Type;
  SystemInfo : Type;
  OutputHandler : Type
}.

(** [time.struct_time], as seconds. *)
Definition struct_time : Type := Z.

(** The parsed command line, one field per [dest] of the argument parser. *)
Record Config : Type := {
  files : list string;
  debug : bool;
  selected_run_definitions : option (list string);
  selected_sourcefile_sets : option (list string);
  name : option string;
  output_path : string;
  timelimit : option string;
  memorylimit : option string;
  num_of_threads : option Z;
  corelimit : option Z;
  maxLogfileSize : Z;
  commit : bool;
  commit_message : string;
  start_time : option struct_time
}.

Definition set_output_path (p : string) (c : Config) : Config :=
  {| files := files c; debug := debug c;
     selected_run_definitions := selected_run_definitions c;
     selected_sourcefile_sets := selected_sourcefile_sets c;
     name := name c; output_path := p; timelimit := timelimit c;
     memorylimit := memorylimit c; num_of_threads := num_of_threads c;
     corelimit := corelimit c; maxLogfileSize := maxLogfileSize c;
     commit := commit c; commit_message := commit_message c;
     start_time := start_time c |}.

(** The attributes of a [benchexec.model.Benchmark] that this module reads. *)
Record Benchmark : Type := {
  log_folder : string;
  run_sets : list string
}.

(** Everything that is shared with other control paths: the machine and the
    sticky flag that [stop] sets. *)
Record World `{Platform} : Type := {
  sys : Sys;
  stopped_by_interrupt : bool
}.

Definition set_stopped_by_interrupt `{Platform} (b : bool) (w : World) : World :=
  {| sys := sys w; stopped_by_interrupt := b |}.

(** A call into a collaborator: it may change the world, and returns or
    raises. *)
Definition call `{Platform} (A : Type) : Type := World -> World * outcome A.

(** The executor capability. *)
Module Executor.
Record t `{Platform} : Type := {
  init : Config -> Benchmark -> call unit;
  get_system_info : call SystemInfo;
  execute_benchmark : Benchmark -> OutputHandler -> call Z;
  stop : call unit
}.
End Executor.

(** The collaborators of [benchexec/__init__.py] that are not among the
    sources, and the library functions it calls. *)
Class Collaborators `{Platform} : Type := {
  sys_argv : list string;
  (** [create_argument_parser().parse_args] *)
  parse_args : list string -> call Config;
  repr : string -> string;
  os_path_exists : string -> World -> bool;
  os_path_isfile : string -> World -> bool;
  os_path_isdir : string -> World -> bool;
  os_path_normpath : string -> string;
  os_rmdir : string -> call unit;
  time_localtime : World -> struct_time;
  (** [Benchmark(benchmark_file, config, start_time)] *)
  Benchmark_new : string -> Config -> struct_time -> call Benchmark;
  (** [OutputHandler(benchmark, system_info)] and its two attributes *)
  OutputHandler_new : Benchmark -> SystemInfo -> call OutputHandler;
  all_created_files : OutputHandler -> World -> list string;
  description : OutputHandler -> World -> string;
  add_files_to_git_repository : string -> list string -> string -> call unit;
  (** the module [benchexec.localexecution] *)
  localexecution : Executor.t
}.

Definition os_sep : string := "/".

Inductive log_level : Type := DEBUG | INFO | WARNING.

(** What the orchestrator does that can be observed from outside, in order. *)
Inductive event : Type :=
| SignalSIGTERM
| ParserError (message : string)
| LoggingBasicConfig (level : log_level)
| Logging (level : log_level) (message : string)
| ExecutorInit (benchmark : Benchmark)
| ExecutorGetSystemInfo
| ExecutorExecuteBenchmark (benchmark : Benchmark) (r : outcome Z)
| ExecutorStop
| Rmdir (path : string) (r : outcome unit)
| AddFilesToGit (path : string) (created : list string) (message : string)
| PrintOut (message : string).

(** The attributes of the [BenchExec] instance, the world and the trace. *)
Record State `{Platform} : Type := {
  world : World;
  executor : option Executor.t;
  config : option Config;
  trace : list event
}.

(** * Control flow: state, exceptions, [try] blocks *)

Module IO.
Section IO.
Context `{Platform}.

Definition M (A : Type) : Type := State -> State * outcome A.

Definition ret {A} (a : A) : M A := fun s => (s, Returns a).

Definition bind {A B} (m : M A) (k : A -> M B) : M B :=
  fun s =>
    match m s with
    | (s', Returns a) => k a s'
    | (s', Raises e) => (s', Raises e)
    end.

Definition raise {A} (e : exn) : M A := fun s => (s, Raises e).

Definition set_world (w : World) (s : State) : State :=
  {| world := w; executor := executor s; config := config s; trace := trace s |}.

Definition set_executor (x : option Executor.t) (s : State) : State :=
  {| world := world s; executor := x; config := config s; trace := trace s |}.

Definition set_config (c : option Config) (s : State) : State :=
  {| world := world s; executor := executor s; config := c; trace := trace s |}.

Definition record (ev : event) (s : State) : State :=
  {| world := world s; executor := executor s; config := config s;
     trace := trace s ++ [ev] |}.

(** Append an event to the trace. *)
Definition emit (ev : event) : M unit := fun s => (record ev s, Returns tt).

(** Assign to an attribute. *)
Definition modify (f : State -> State) : M unit := fun s => (f s, Returns tt).

(** Call a collaborator on the current world. *)
Definition invoke {A} (f : call A) : M A :=
  fun s => let (w, r) := f (world s) in (set_world w s, r).

(** Call a collaborator and note the call with its result. *)
Definition invoke_noting {A} (ev : outcome A -> event) (f : call A) : M A :=
  fun s => let (w, r) := f (world s) in (record (ev r) (set_world w s), r).

(** Read something off the current world. *)
Definition observe {A} (f : World -> A) : M A := fun s => (s, Returns (f (world s))).

(** [try: body finally: final]: [final] runs on both exits of [body];
    an exception of [final] replaces the result of [body]. *)
Definition try_finally {A} (body : M A) (final : M unit) : M A :=
  fun s =>
    let (s1, r) := body s in
    match final s1 with
    | (s2, Returns _) => (s2, r)
    | (s2, Raises e) => (s2, Raises e)
    end.

(** [try: body except <those for which catches holds> as e: handler e] *)
Definition try_except {A} (body : M A) (catches : exn -> bool)
    (handler : exn -> M A) : M A :=
  fun s =>
    match body s with
    | (s1, Raises e) => if catches e then handler e s1 else (s1, Raises e)
    | (s1, Returns a) => (s1, Returns a)
    end.

End IO.
End IO.
Import IO.

Declare Scope io_scope.
Delimit Scope io_scope with io.
Notation "x <- m ;; k" := (IO.bind m (fun x => k))
  (at level 100, m at next level, right associativity) : io_scope.
Notation "m ;;; k" := (IO.bind m (fun _ => k))
  (at level 100, right associativity) : io_scope.

(** [sys.exit(arg)] *)
Definition sys_exit `{Platform} {A} (arg : exit_arg) : M A := raise (SystemExit arg).

(** [argparse.ArgumentParser.error(message)]: prints the usage and the
    message to standard error and exits with status 2. *)
Definition parser_error `{Platform} {A} (message : string) : M A :=
  (emit (ParserError message) ;;; sys_exit (ExitCode 2))%io.

(** [logging.debug], [logging.warning] *)
Definition logging_debug `{Platform} (message : string) : M unit :=
  emit (Logging DEBUG message).
Definition logging_warning `{Platform} (message : string) : M unit :=
  emit (Logging WARNING message).

(** [a or b] on integers: [a] when it is truthy, [b] otherwise. *)
Definition py_or (a b : Z) : Z := if (a =? 0)%Z then b else a.

Definition is_KeyboardInterrupt (e : exn) : bool :=
  match e with KeyboardInterrupt => true | _ => false end.

Definition is_OSError (e : exn) : bool :=
  match e with OSError _ => true | _ => false end.

(** [str(e)] *)
Definition str_of_exn (e : exn) : string :=
  match e with
  | SystemExit ExitNone => "None"
  | SystemExit (ExitCode n) => str_of_int n
  | SystemExit (ExitMessage m) => m
  | KeyboardInterrupt => ""
  | OSError m | AttributeError m | TypeError m | OtherError m => m
  end.

(** * benchexec (the package's [__init__.py]) *)

Module BenchExec.
Section methods.
Context `{Collaborators}.
Local Open Scope io_scope.

Definition DEFAULT_OUTPUT_PATH : string := "results/".

Definition __init__ : M unit :=
  modify (set_executor None) ;;;
  modify (fun s => set_world (set_stopped_by_interrupt false (world s)) s).

(** [BenchExec()]: a fresh instance, which has no [config] attribute yet. *)
Definition new : M unit :=
  modify (set_config None) ;;;
  __init__.

(** [self.config] *)
Definition self_config : M Config :=
  fun s =>
    match config s with
    | Some c => (s, Returns c)
    | None => (s, Raises (AttributeError "'BenchExec' object has no attribute 'config'"))
    end.

(** [self.executor.<method>] *)
Definition self_executor_method (method : string) : M Executor.t :=
  fun s =>
    match executor s with
    | Some x => (s, Returns x)
    | None => (s, Raises (AttributeError
                 ("'NoneType' object has no attribute '" +:+ method +:+ "'")))
    end.

(** [self.executor] *)
Definition self_executor : M (option Executor.t) := fun s => (s, Returns (executor s)).

(** [self.stopped_by_interrupt] *)
Definition self_stopped_by_interrupt : M bool := observe stopped_by_interrupt.

Definition setup_logging : M unit :=
  cfg <- self_config ;;
  if debug cfg then emit (LoggingBasicConfig DEBUG)
  else emit (LoggingBasicConfig INFO).

Definition load_executor : M Executor.t := ret localexecution.

Definition check_existing_results (benchmark : Benchmark) : M unit :=
  found <- observe (os_path_exists (log_folder benchmark)) ;;
  if found then
    sys_exit (ExitMessage ("Output directory " +:+ log_folder benchmark
                +:+ " already exists, will not overwrite existing results."))
  else ret tt.

(** Lines 244-251: the executor call and the removal of the log folder. *)
Definition run_and_clean_up (benchmark : Benchmark) (output_handler : OutputHandler)
    : M Z :=
  try_finally
    (ex <- self_executor_method "execute_benchmark" ;;
     invoke_noting (ExecutorExecuteBenchmark benchmark)
       (Executor.execute_benchmark ex benchmark output_handler))
    (* remove useless log folder if it is empty *)
    (try_except
       (invoke_noting (Rmdir (log_folder benchmark)) (os_rmdir (log_folder benchmark)))
       (fun _ => true)
       (fun _ => ret tt)).

(** Lines 253-259: the optional commit of the created files. *)
Definition commit_results (cfg : Config) (output_handler : OutputHandler) : M unit :=
  stopped <- self_stopped_by_interrupt ;;
  if commit cfg && negb stopped then
    try_except
      (created <- observe (all_created_files output_handler) ;;
       text <- observe (description output_handler) ;;
       let message := commit_message cfg +:+ NL +:+ NL +:+ text in
       emit (AddFilesToGit (output_path cfg) created message) ;;;
       invoke (add_files_to_git_repository (output_path cfg) created message))
      is_OSError
      (fun e => logging_warning ("Could not add files to git repository: "
                                 +:+ str_of_exn e))
  else ret tt.

Definition execute_benchmark (benchmark_file : string) : M Z :=
  cfg <- self_config ;;
  now <- match start_time cfg with
         | Some t => ret t
         | None => observe time_localtime
         end ;;
  benchmark <- invoke (Benchmark_new benchmark_file cfg now) ;;
  check_existing_results benchmark ;;;
  ex <- self_executor_method "init" ;;
  emit (ExecutorInit benchmark) ;;;
  invoke (Executor.init ex cfg benchmark) ;;;
  emit ExecutorGetSystemInfo ;;;
  system_info <- invoke (Executor.get_system_info ex) ;;
  output_handler <- invoke (OutputHandler_new benchmark system_info) ;;
  logging_debug ("I'm benchmarking " +:+ repr benchmark_file +:+ " consisting of "
                 +:+ str_of_int (Z.of_nat (List.length (run_sets benchmark)))
                 +:+ " run sets.") ;;;
  result <- run_and_clean_up benchmark output_handler ;;
  commit_results cfg output_handler ;;;
  ret result.

(** Lines 87-89: every listed file must exist and be a regular file. *)
Fixpoint check_files (args : list string) : M unit :=
  match args with
  | [] => ret tt
  | arg :: rest =>
      found <- observe (os_path_exists arg) ;;
      regular <- observe (os_path_isfile arg) ;;
      (if negb found || negb regular then
         parser_error ("File " +:+ repr arg +:+ " does not exist.")
       else ret tt) ;;;
      check_files rest
  end.

(** Lines 99-105: one benchmark after the other, until interrupted. *)
Fixpoint run_files (args : list string) (returnCode : Z) : M Z :=
  match args with
  | [] => ret returnCode
  | arg :: rest =>
      stopped <- self_stopped_by_interrupt ;;
      if stopped then ret returnCode
      else
        logging_debug ("Benchmark " +:+ repr arg +:+ " is started.") ;;;
        rc <- execute_benchmark arg ;;
        let returnCode := py_or returnCode rc in
        logging_debug ("Benchmark " +:+ repr arg +:+ " is done.") ;;;
        run_files rest returnCode
  end.

Definition start (argv : list string) : M Z :=
  cfg <- invoke (parse_args (tl argv)) ;;
  modify (set_config (Some cfg)) ;;;
  check_files (files cfg) ;;;
  is_dir <- observe (os_path_isdir (output_path cfg)) ;;
  let cfg := if is_dir
             then set_output_path (os_path_normpath (output_path cfg) +:+ os_sep) cfg
             else cfg in
  modify (set_config (Some cfg)) ;;;
  setup_logging ;;;
  ex <- load_executor ;;
  modify (set_executor (Some ex)) ;;;
  returnCode <- run_files (files cfg) 0 ;;
  logging_debug "I think my job is done. Have a nice day!" ;;;
  ret returnCode.

Definition stop : M unit :=
  modify (fun s => set_world (set_stopped_by_interrupt true (world s)) s) ;;;
  ex <- self_executor ;;
  match ex with
  | Some ex => emit ExecutorStop ;;; invoke (Executor.stop ex)
  | None => ret tt
  end.

End methods.
End BenchExec.

Section toplevel.
Context `{Collaborators}.
Local Open Scope io_scope.

(** Log and ignore all signals. *)
Definition signal_handler_ignore (signum : Z) : M unit :=
  logging_warning ("Received signal " +:+ str_of_int signum +:+ ", ignoring it").

(** [benchexec] is [true] when an instance was passed (its attributes are
    those of the state) and [false] when it was left out. *)
Definition main (benchexec : bool) (argv : option (list string)) : M unit :=
  (* ignore SIGTERM *)
  emit SignalSIGTERM ;;;
  try_except
    ((if benchexec then ret tt else BenchExec.new) ;;;
     rc <- BenchExec.start (match argv with
                            | Some (a :: l) => a :: l
                            | _ => sys_argv
                            end) ;;
     sys_exit (ExitCode rc))
    is_KeyboardInterrupt
    (fun _ =>
       BenchExec.stop ;;;
       emit (PrintOut (NL +:+ NL
               +:+ "Script was interrupted by user, some runs may not be done."))).

End toplevel.

(** The exit status of the interpreter for a script whose last statement is
    the call of [main], on a POSIX system: [sys.exit(None)] and a normal end
    give 0; of an integer argument the low byte is the status; any other
    argument is printed and gives 1, as does an exception nobody caught.
    There is no answer where the code does not fix the status: for an
    integer beyond the range of a C [int], and for a KeyboardInterrupt
    nobody caught, which ends the process with status 1 or through the
    signal, depending on the interpreter. *)
Definition exit_status {A} (r : outcome A) : option Z :=
  match r with
  | Returns _ => Some 0
  | Raises (SystemExit ExitNone) => Some 0
  | Raises (SystemExit (ExitCode n)) =>
      if (- 2 ^ 31 <=? n)%Z && (n <? 2 ^ 31)%Z then Some (n mod 256) else None
  | Raises (SystemExit (ExitMessage _)) => Some 1
  | Raises KeyboardInterrupt => None
  | Raises _ => Some 1
  end.

(** * A machine in memory

    A concrete environment on which the orchestrator can be run: a file
    system as a list of nodes by path, and an executor scripted by
    the content of the benchmark-definition file. *)

Module InMemory.

Inductive node : Type :=
| RegularFile (content : string)
| Directory (entries : list string).

(** The file system: the nodes by path, the latest entry of a path first. *)
Definition filesystem : Type := list (string * node).

Fixpoint lookup (path : string) (fs : filesystem) : option node :=
  match fs with
  | [] => None
  | (p, n) :: rest => if String.eqb p path then Some n else lookup path rest
  end.

Fixpoint remove (path : string) (fs : filesystem) : filesystem :=
  match fs with
  | [] => []
  | (p, n) :: rest =>
      if String.eqb p path then remove path rest else (p, n) :: remove path rest
  end.

Definition write (path : string) (n : node) (fs : filesystem) : filesystem :=
  (path, n) :: remove path fs.

#[export] Instance platform : Platform :=
  {| Sys := filesystem; SystemInfo := string; OutputHandler := Benchmark |}.

Definition exists_ (path : string) (w : World) : bool :=
  match lookup path (sys w) with Some _ => true | None => false end.

Definition isfile (path : string) (w : World) : bool :=
  match lookup path (sys w) with Some (RegularFile _) => true | _ => false end.

Definition isdir (path : string) (w : World) : bool :=
  match lookup path (sys w) with Some (Directory _) => true | _ => false end.

Definition with_sys (fs : filesystem) (w : World) : World :=
  {| sys := fs; stopped_by_interrupt := stopped_by_interrupt w |}.

Definition rmdir (path : string) : call unit :=
  fun w =>
    match lookup path (sys w) with
    | Some (Directory []) => (with_sys (remove path (sys w)) w, Returns tt)
    | Some (Directory _) => (w, Raises (OSError "Directory not empty"))
    | Some (RegularFile _) => (w, Raises (OSError "Not a directory"))
    | None => (w, Raises (OSError "No such file or directory"))
    end.

(** Drops the slashes at the end of a path. *)
Fixpoint normpath (p : string) : string :=
  match p with
  | EmptyString => EmptyString
  | String c p' =>
      match normpath p' with
      | EmptyString => if Ascii.eqb c "/" then EmptyString else String c EmptyString
      | r => String c r
      end
  end.

Definition is_option (a : string) : bool := String.prefix "-" a.

(** The options of a command line and their defaults, for the given files. *)
Definition parsed (argv fs : list string) : Config :=
  {| files := fs;
     debug := existsb (String.eqb "--debug") argv;
     selected_run_definitions := None;
     selected_sourcefile_sets := None;
     name := None;
     output_path := BenchExec.DEFAULT_OUTPUT_PATH;
     timelimit := None; memorylimit := None;
     num_of_threads := None; corelimit := None;
     maxLogfileSize := 20;
     commit := existsb (String.eqb "--commit") argv;
     commit_message := "Results for benchmark run";
     start_time := None |}.

Definition parse (argv : list string) : call Config :=
  fun w =>
    match filter (fun a => negb (is_option a)) argv with
    | [] => (w, Raises (SystemExit (ExitCode 2)))
    | fs => (w, Returns (parsed argv fs))
    end.

Definition new_benchmark (file : string) (cfg : Config) (now : struct_time)
    : call Benchmark :=
  fun w =>
    match lookup file (sys w) with
    | Some (RegularFile content) =>
        (w, Returns {| log_folder := output_path cfg +:+ file +:+ ".logfiles";
                       run_sets := [content] |})
    | _ => (w, Raises (OtherError "cannot read the benchmark definition"))
    end.

(** Creates the log folder, as the output handler does. *)
Definition new_output_handler (b : Benchmark) (info : string) : call Benchmark :=
  fun w => (with_sys (write (log_folder b) (Directory []) (sys w)) w, Returns b).

(** The scripted executor: [ok] succeeds and leaves the log folder empty,
    [fail] writes a log and reports 1, [stop] is interrupted from another
    control path, [interrupt] is cancelled by the user; anything else
    fails to run. *)
Definition run (b : Benchmark) (oh : Benchmark) : call Z :=
  fun w =>
    match run_sets b with
    | ["ok"] => (w, Returns 0)
    | ["fail"] =>
        (with_sys (write (log_folder b) (Directory ["run.log"]) (sys w)) w, Returns 1)
    | ["stop"] => (set_stopped_by_interrupt true w, Returns 0)
    | ["interrupt"] => (w, Raises KeyboardInterrupt)
    | _ => (w, Raises (OtherError "tool not found"))
    end.

Definition scripted : Executor.t :=
  {| Executor.init := fun _ _ w => (w, Returns tt);
     Executor.get_system_info := fun w => (w, Returns "in memory");
     Executor.execute_benchmark := run;
     Executor.stop := fun w => (w, Returns tt) |}.

Definition created (oh : Benchmark) (w : World) : list string :=
  match lookup (log_folder oh) (sys w) with
  | Some (Directory entries) => entries
  | _ => []
  end.

(** Works when the output path holds a repository. *)
Definition git_add (path : string) (created : list string) (message : string)
    : call unit :=
  fun w =>
    if isdir (path +:+ ".git") w then (w, Returns tt)
    else (w, Raises (OSError "not a git repository")).

#[export] Instance collaborators : Collaborators :=
  {| sys_argv := ["benchexec"];
     parse_args := parse;
     repr := fun s => "'" +:+ s +:+ "'";
     os_path_exists := exists_;
     os_path_isfile := isfile;
     os_path_isdir := isdir;
     os_path_normpath := normpath;
     os_rmdir := rmdir;
     time_localtime := fun _ => 0;
     Benchmark_new := new_benchmark;
     OutputHandler_new := new_output_handler;
     all_created_files := created;
     description := fun _ _ => "in memory";
     add_files_to_git_repository := git_add;
     localexecution := scripted |}.

(** A disk with the given nodes, and a state before anything ran. *)
Definition disk (nodes : filesystem) : World :=
  {| sys := nodes; stopped_by_interrupt := false |}.

Definition boot (w : World) : State :=
  {| world := w; executor := None; config := None; trace := [] |}.

(** What a run leaves to look at: the trace, the flag and the result. *)
Definition observed {A} (r : State * outcome A) : list event * bool * outcome A :=
  (trace (fst r), stopped_by_interrupt (world (fst r)), snd r).

End InMemory.

(** The same machine with an executor that reports the number written in
    the benchmark-definition file. *)
Module Numbered.
Import InMemory.

Definition run (b : Benchmark) (oh : Benchmark) : call Z :=
  fun w =>
    match run_sets b with
    | [content] =>
        match NilZero.int_of_string content with
        | Some n => (w, Returns (Z.of_int n))
        | None => (w, Raises (OtherError "tool not found"))
        end
    | _ => (w, Raises (OtherError "tool not found"))
    end.

Definition executor : Executor.t :=
  {| Executor.init := fun _ _ w => (w, Returns tt);
     Executor.get_system_info := fun w => (w, Returns "in memory");
     Executor.execute_benchmark := run;
     Executor.stop := fun w => (w, Returns tt) |}.

Definition collaborators : Collaborators :=
  {| sys_argv := ["benchexec"];
     parse_args := InMemory.parse;
     repr := fun s => "'" +:+ s +:+ "'";
     os_path_exists := InMemory.exists_;
     os_path_isfile := InMemory.isfile;
     os_path_isdir := InMemory.isdir;
     os_path_normpath := InMemory.normpath;
     os_rmdir := InMemory.rmdir;
     time_localtime := fun _ => 0;
     Benchmark_new := InMemory.new_benchmark;
     OutputHandler_new := InMemory.new_output_handler;
     all_created_files := InMemory.created;
     description := fun _ _ => "in memory";
     add_files_to_git_repository := InMemory.git_add;
     localexecution := executor |}.

End Numbered.


(** * The specification's vocabulary *)

(** An adapter's text markers in the order in which it checks them, each
    with its verdict. *)
Definition aprove_markers : list (string * Verdict) :=
  [("YES", RESULT_TRUE_PROP); ("TRUE", RESULT_TRUE_PROP);
   ("FALSE", RESULT_FALSE_TERMINATION); ("NO", RESULT_FALSE_TERMINATION)].

Definition forest_markers : list (string * Verdict) :=
  [("TRUE", RESULT_TRUE_PROP); ("FALSE_REACH", RESULT_FALSE_REACH);
   ("FALSE_DEREF", RESULT_FALSE_DEREF); ("FALSE_FREE", RESULT_FALSE_FREE)].

(** A marker occurs in an output: as a substring of a string, as an element
    of a list. *)
Definition occurs (output : value) (marker : string) : bool :=
  match output with
  | VStr s => contains marker s
  | VList l => existsb (String.eqb marker) l
  | VNone => false
  end.

(** A marker occurs in a text. *)
Definition within (text : string) (marker : string) : bool := contains marker text.

(** The verdict of the first marker, in the given order, that is hit;
    [RESULT_UNKNOWN] when none is. *)
Fixpoint first_match (hit : string -> bool) (markers : list (string * Verdict)) : Verdict :=
  match markers with
  | [] => RESULT_UNKNOWN
  | (marker, verdict) :: rest =>
      if hit marker then verdict else first_match hit rest
  end.

(** The verdict of the last marker, in the given order, that is hit. *)
Definition last_match (hit : string -> bool) (markers : list (string * Verdict)) : Verdict :=
  first_match hit (rev markers).

(** No marker of the list is hit. *)
Definition no_marker (hit : string -> bool) (markers : list (string * Verdict)) : bool :=
  forallb (fun m => negb (hit (fst m))) markers.

(** A string without a line feed. *)
Fixpoint single_line (s : string) : bool :=
  match s with
  | EmptyString => true
  | String c s' => negb (Ascii.eqb c "010") && single_line s'
  end.

(** The markers of the Symbiotic adapter are compared with the whole
    stripped output. *)
Definition symbiotic_markers : list string := ["TRUE"; "UNKNOWN"; "FALSE"].

Definition no_symbiotic_marker (output : string) : bool :=
  forallb (fun m => negb (String.eqb (strip output) m)) symbiotic_markers.

(** A verdict is an error string that embeds the exit code and the signal. *)
Definition embeds_code_and_signal (returncode returnsignal : Z) (v : Verdict) : bool :=
  match v with
  | Text s => contains (str_of_int returncode) s && contains (str_of_int returnsignal) s
  | _ => false
  end.

(** A string of white space only, in the sense of [str.isspace]. *)
Fixpoint blank (s : string) : bool :=
  match s with
  | EmptyString => true
  | String c s' => is_space c && blank s'
  end.

(** A string that starts with a character that is not white space. *)
Definition starts_solid (s : string) : bool :=
  match s with
  | EmptyString => false
  | String c _ => negb (is_space c)
  end.

(** A marker occurs in one of the lines. *)
Definition in_some_line (lines : list string) (marker : string) : bool :=
  existsb (contains marker) lines.

(** The verdict the Symbiotic adapter attaches to a marker. *)
Definition symbiotic_verdict (marker : string) : Verdict :=
  if String.eqb marker "TRUE" then RESULT_TRUE_PROP
  else if String.eqb marker "UNKNOWN" then RESULT_UNKNOWN
  else RESULT_FALSE_REACH.

(** The Symbiotic [cmdline] called once per property file of the list, one after the
    other, on the same [options] list and with the same task; the list after
    the last call and the results in order. *)
Fixpoint cmdline_each (executable : string) (options : list string) (task : string)
    (propertyfiles : list string) : list string * list (asserted (list string)) :=
  match propertyfiles with
  | [] => (options, [])
  | p :: rest =>
      let (options, r) := symbiotic3.cmdline executable options [task] (Some p) [] in
      let (options, rs) := cmdline_each executable options task rest in
      (options, r :: rs)
  end.

(** The files the Symbiotic adapter lists beside its executable. *)
Definition symbiotic_auxiliary : list string :=
  ["build-fix.sh"; "path_to_ml.pl"; "bin/klee"; "bin/opt"; "bin/clang";
   "bin/llvm-link"; "bin/llvm-slicer"; "lib.c"; "lib/libllvmdg.so";
   "lib/LLVMsvc15.so"; "lib/klee/runtime/kleeRuntimeIntrinsic.bc";
   "lib32/klee/runtime/kleeRuntimeIntrinsic.bc"].

(** A path component: no separator in it. *)
Fixpoint no_sep (s : string) : bool :=
  match s with
  | EmptyString => true
  | String c s' => negb (posixpath.is_sep c) && no_sep s'
  end.

(** What [join] puts in front of a folder: nothing when the folder is
    absolute, the current directory otherwise. *)
Definition anchor (folder : string) : string :=
  if String.prefix "/" folder then "" else "./".

(** The return codes of the executor calls noted in a trace, in order. *)
Definition return_codes (evs : list event) : list Z :=
  flat_map (fun ev => match ev with
                      | ExecutorExecuteBenchmark _ (Returns rc) => [rc]
                      | _ => []
                      end) evs.

(** The report of a configured file that is missing. *)
Definition missing_file_report `{Collaborators} (arg : string) : event :=
  ParserError ("File " +:+ repr arg +:+ " does not exist.").

(** A configured file is missing: it does not exist or is not a regular file. *)
Definition missing `{Collaborators} (arg : string) (w : World) : bool :=
  negb (os_path_exists arg w) || negb (os_path_isfile arg w).

(** Every run of [m] relates the state before to the state after. *)
Definition preserves `{Platform} {A} (I : State -> State -> Prop) (m : M A) : Prop :=
  forall s s' r, m s = (s', r) -> I s s'.

(** The attributes [config] and [executor] of the instance are unchanged. *)
Definition same_instance `{Platform} (s s' : State) : Prop :=
  config s' = config s /\ executor s' = executor s.

(** No executor call returned in between. *)
Definition same_codes `{Platform} (s s' : State) : Prop :=
  return_codes (trace s') = return_codes (trace s).

(** The start time of a benchmark: the configured one wins over the clock. *)
Definition timestamp `{Collaborators} (cfg : Config) (w : World) : struct_time :=
  match start_time cfg with
  | Some t => t
  | None => time_localtime w
  end.

(** The state in which [main] calls [start]: the handler is installed and,
    when no instance was passed, a fresh one is made. *)
Definition entry `{Collaborators} (benchexec : bool) (s : State) : State :=
  let s' := record SignalSIGTERM s in
  if benchexec then s' else fst (BenchExec.new s').

(** The command line [main] hands to [start]. *)
Definition effective_argv `{Collaborators} (argv : option (list string)) : list string :=
  match argv with
  | Some (a :: l) => a :: l
  | _ => sys_argv
  end.

(** The configuration after [start] normalised the output path. *)
Definition normalised `{Collaborators} (cfg : Config) (w : World) : Config :=
  if os_path_isdir (output_path cfg) w
  then set_output_path (os_path_normpath (output_path cfg) +:+ os_sep) cfg
  else cfg.

(** The state in which [start] enters its loop over the benchmark files. *)
Definition ready `{Collaborators} (cfg : Config) (w : World) (s : State) : State :=
  {| world := w;
     executor := Some localexecution;
     config := Some (normalised cfg w);
     trace := trace s ++ [LoggingBasicConfig (if debug cfg then DEBUG else INFO)] |}.

(** The message of the refusal to overwrite results. *)
Definition refusal (b : Benchmark) : string :=
  "Output directory " +:+ log_folder b
  +:+ " already exists, will not overwrite existing results.".

(** The state in which [execute_benchmark] leaves its [try ... finally]
    block: the executor was initialised and called with result [r], and the
    removal of the log folder was attempted with result [d]. *)
Definition cleaned_up `{Collaborators} (s : State) (w : World) (benchmark_file : string)
    (b : Benchmark) (r : outcome Z) (d : outcome unit) : State :=
  {| world := w; executor := executor s; config := config s;
     trace := trace s ++
       [ExecutorInit b; ExecutorGetSystemInfo;
        Logging DEBUG ("I'm benchmarking " +:+ repr benchmark_file +:+ " consisting of "
                       +:+ str_of_int (Z.of_nat (List.length (run_sets b))) +:+ " run sets.");
        ExecutorExecuteBenchmark b r;
        Rmdir (log_folder b) d] |}.

(** The number of executor calls and of removal attempts noted in a trace. *)
Definition executor_calls (evs : list event) : nat :=
  List.length (filter (fun ev => match ev with
                                 | ExecutorExecuteBenchmark _ _ => true
                                 | _ => false
                                 end) evs).

Definition removal_attempts (evs : list event) : nat :=
  List.length (filter (fun ev => match ev with
                                 | Rmdir _ _ => true
                                 | _ => false
                                 end) evs).

(** As many removal attempts as executor calls were noted in between. *)
Definition balanced `{Platform} (s s' : State) : Prop :=
  (executor_calls (trace s') + removal_attempts (trace s)
   = executor_calls (trace s) + removal_attempts (trace s'))%nat.

(** The same, for an instance that has an executor, which it keeps. *)
Definition balanced_with_executor `{Platform} (s s' : State) : Prop :=
  executor s' = executor s /\ (executor s <> None -> balanced s s').

(** Nothing was noted in between and the instance is the same. *)
Definition silent `{Platform} (s s' : State) : Prop :=
  trace s' = trace s /\ executor s' = executor s /\ config s' = config s.

(** The first return code that is not zero; zero when there is none. *)
Definition first_failure (codes : list Z) : Z :=
  hd 0 (filter (fun rc => negb (rc =? 0)%Z) codes).


(** * Strings *)

Lemma contains_unfold (sub s : string) :
  contains sub s =
  if String.prefix sub s then true
  else match s with
       | EmptyString => false
       | String _ s' => contains sub s'
       end.
Proof. destruct s; reflexivity. Qed.

Lemma prefix_append (sub post : string) : String.prefix sub (sub +:+ post) = true.
Proof.
  induction sub as [|c sub IH]; simpl.
  - destruct post; reflexivity.
  - destruct (ascii_dec c c) as [_|Hne]; [exact IH | congruence].
Qed.

Lemma contains_append (pre sub post : string) :
  contains sub (pre +:+ sub +:+ post) = true.
Proof.
  induction pre as [|c pre IH].
  - rewrite contains_unfold. change ("" +:+ sub +:+ post) with (sub +:+ post).
    now rewrite prefix_append.
  - rewrite contains_unfold.
    destruct (String.prefix sub (String c pre +:+ sub +:+ post)); [reflexivity|].
    exact IH.
Qed.

Lemma append_assoc (a b c : string) : (a +:+ b) +:+ c = a +:+ b +:+ c.
Proof.
  induction a as [|x a IH]; [reflexivity|].
  change (String x ((a +:+ b) +:+ c) = String x (a +:+ b +:+ c)).
  now rewrite IH.
Qed.

Lemma prefix_empty (s : string) : String.prefix "" s = true.
Proof. destruct s; reflexivity. Qed.

(** A marker without line feed that starts before a line feed ends before it. *)
Lemma prefix_before_newline (m a b : string) :
  single_line m = true ->
  String.prefix m (a +:+ NL +:+ b) = String.prefix m a.
Proof.
  revert m. induction a as [|x a IH]; intros m Hm.
  - destruct m as [|c m]; [reflexivity|].
    simpl in Hm. apply andb_prop in Hm as [Hc _].
    apply negb_true_iff, Ascii.eqb_neq in Hc.
    simpl. destruct (ascii_dec c "010"); [contradiction | reflexivity].
  - destruct m as [|c m]; [reflexivity|].
    simpl in Hm. apply andb_prop in Hm as [_ Hm].
    simpl. destruct (ascii_dec c x); [now apply IH | reflexivity].
Qed.

Lemma contains_across_newline (m a b : string) :
  m <> "" -> single_line m = true ->
  contains m (a +:+ NL +:+ b) = contains m a || contains m b.
Proof.
  intros Hne Hm. induction a as [|x a IH].
  - rewrite (contains_unfold m ("" +:+ NL +:+ b)).
    rewrite prefix_before_newline by assumption.
    destruct m as [|c m]; [congruence | reflexivity].
  - rewrite (contains_unfold m (String x a +:+ NL +:+ b)).
    rewrite prefix_before_newline by assumption.
    rewrite (contains_unfold m (String x a)).
    destruct (String.prefix m (String x a)); [reflexivity | exact IH].
Qed.

(** A marker without line feed occurs in the joined lines exactly when it
    occurs in one of them. *)
Lemma contains_join (m : string) (lines : list string) :
  m <> "" -> single_line m = true ->
  contains m (join NL lines) = existsb (contains m) lines.
Proof.
  intros Hne Hm. induction lines as [|x [|y rest] IH].
  - destruct m; [congruence | reflexivity].
  - simpl. now rewrite orb_false_r.
  - change (join NL (x :: y :: rest)) with (x +:+ NL +:+ join NL (y :: rest)).
    rewrite contains_across_newline by assumption.
    now rewrite IH.
Qed.

(** * The adapters *)

Lemma forest_last_match (returncode returnsignal : Z) (output : value) (isTimeout : bool) :
  output <> VNone ->
  forest.determine_result returncode returnsignal output isTimeout
  = Returns (last_match (occurs output) forest_markers).
Proof.
  intros Hsome.
  assert (Hin : forall m, py_in m output = Returns (occurs output m))
    by (intros m; destruct output; [congruence | reflexivity | reflexivity]).
  unfold forest.determine_result. rewrite !Hin.
  cbv [Py.bind last_match forest_markers rev app first_match].
  destruct (occurs output "TRUE"), (occurs output "FALSE_REACH"),
    (occurs output "FALSE_DEREF"), (occurs output "FALSE_FREE"); reflexivity.
Qed.

Lemma aprove_first_match (returncode returnsignal : Z) (output : value) (isTimeout : bool)
    (text : string) :
  py_join_lines output = Returns text ->
  aprove.determine_result returncode returnsignal output isTimeout
  = Returns (first_match (within text) aprove_markers).
Proof.
  intros Hjoin. unfold aprove.determine_result. rewrite Hjoin.
  cbv [Py.bind first_match aprove_markers within].
  destruct (contains "YES" text), (contains "TRUE" text),
    (contains "FALSE" text), (contains "NO" text); reflexivity.
Qed.

Lemma first_match_none (hit : string -> bool) (markers : list (string * Verdict)) :
  no_marker hit markers = true -> first_match hit markers = RESULT_UNKNOWN.
Proof.
  induction markers as [|[m v] rest IH]; simpl; [reflexivity|].
  intros Hno. apply andb_prop in Hno as [Hm Hrest].
  apply negb_true_iff in Hm. rewrite Hm. now apply IH.
Qed.

Lemma no_marker_rev (hit : string -> bool) (markers : list (string * Verdict)) :
  no_marker hit (rev markers) = no_marker hit markers.
Proof.
  unfold no_marker. induction markers as [|m rest IH]; simpl; [reflexivity|].
  rewrite forallb_app, IH. simpl. rewrite andb_true_r. apply andb_comm.
Qed.

Lemma forest_no_marker (returncode returnsignal : Z) (output : value) (isTimeout : bool) :
  output <> VNone ->
  no_marker (occurs output) forest_markers = true ->
  forest.determine_result returncode returnsignal output isTimeout
  = Returns RESULT_UNKNOWN.
Proof.
  intros Hsome Hno. rewrite forest_last_match by assumption. f_equal.
  apply first_match_none. now rewrite no_marker_rev.
Qed.

Lemma aprove_no_marker (returncode returnsignal : Z) (output : value) (isTimeout : bool)
    (text : string) :
  py_join_lines output = Returns text ->
  no_marker (within text) aprove_markers = true ->
  aprove.determine_result returncode returnsignal output isTimeout
  = Returns RESULT_UNKNOWN.
Proof.
  intros Hjoin Hno. rewrite (aprove_first_match _ _ _ _ text Hjoin).
  f_equal. now apply first_match_none.
Qed.

Lemma symbiotic_no_marker (returncode returnsignal : Z) (s : string) :
  no_symbiotic_marker s = true ->
  symbiotic3.determine_result returncode returnsignal (VStr s) false
  = if (returncode =? 0)%Z then Returns (Text "error (unknown)")
    else Returns (Text ("Failed with returncode: " +:+ str_of_int returncode
                        +:+ " (signal: " +:+ str_of_int returnsignal +:+ ")")).
Proof.
  unfold no_symbiotic_marker, symbiotic_markers. cbn [forallb].
  rewrite !andb_true_iff, !negb_true_iff. intros (HT & HU & HF & _).
  cbv [symbiotic3.determine_result py_strip Py.bind is_None eq_str].
  rewrite HT, HU, HF. destruct (returncode =? 0)%Z; reflexivity.
Qed.

Lemma failed_message_embeds (returncode returnsignal : Z) :
  embeds_code_and_signal returncode returnsignal
    (Text ("Failed with returncode: " +:+ str_of_int returncode
           +:+ " (signal: " +:+ str_of_int returnsignal +:+ ")")) = true.
Proof.
  unfold embeds_code_and_signal. apply andb_true_intro. split.
  - apply contains_append.
  - rewrite <- (append_assoc (str_of_int returncode)), <- append_assoc.
    apply contains_append.
Qed.

(** C2, as stated, fails for the Forest adapter: it checks TRUE first, yet on
    an output in which both TRUE and FALSE_REACH occur it answers
    FALSE_REACH, not TRUE_PROP. *)
Lemma forest_true_then_false_reach :
  occurs (VStr "TRUE FALSE_REACH") "TRUE" = true /\
  occurs (VStr "TRUE FALSE_REACH") "FALSE_REACH" = true /\
  forest.determine_result 0 0 (VStr "TRUE FALSE_REACH") false = Returns RESULT_FALSE_REACH /\
  forest.determine_result 0 0 (VStr "TRUE FALSE_REACH") false <> Returns RESULT_TRUE_PROP.
Proof. repeat split; [reflexivity .. | discriminate]. Qed.

(** C2, amended: the AProVE adapter returns the verdict of the first of its
    markers YES, TRUE, FALSE, NO that occurs in the joined output, so that an
    output with both TRUE and FALSE_REACH yields TRUE_PROP; the Forest
    adapter returns the verdict of the last of its markers TRUE, FALSE_REACH,
    FALSE_DEREF, FALSE_FREE that occurs, so that an output with both TRUE and
    FALSE_REACH yields FALSE_REACH unless FALSE_DEREF or FALSE_FREE occurs
    as well. *)
Theorem marker_priority :
  (forall returncode returnsignal output isTimeout text,
     py_join_lines output = Returns text ->
     aprove.determine_result returncode returnsignal output isTimeout
     = Returns (first_match (within text) aprove_markers)) /\
  (forall returncode returnsignal output isTimeout text,
     py_join_lines output = Returns text ->
     within text "TRUE" = true -> within text "FALSE_REACH" = true ->
     aprove.determine_result returncode returnsignal output isTimeout
     = Returns RESULT_TRUE_PROP) /\
  (forall returncode returnsignal output isTimeout,
     output <> VNone ->
     forest.determine_result returncode returnsignal output isTimeout
     = Returns (last_match (occurs output) forest_markers)) /\
  (forall returncode returnsignal output isTimeout,
     occurs output "TRUE" = true -> occurs output "FALSE_REACH" = true ->
     occurs output "FALSE_DEREF" = false -> occurs output "FALSE_FREE" = false ->
     forest.determine_result returncode returnsignal output isTimeout
     = Returns RESULT_FALSE_REACH).
Proof.
  split; [|split; [|split]].
  - intros. now apply aprove_first_match.
  - intros rc sg output t text Hjoin HT _.
    rewrite (aprove_first_match _ _ _ _ text Hjoin).
    cbv [first_match aprove_markers]. rewrite HT.
    now destruct (within text "YES").
  - intros. now apply forest_last_match.
  - intros rc sg output t HT HR HD HF.
    assert (Hsome : output <> VNone) by (intros ->; discriminate).
    rewrite forest_last_match by assumption.
    cbv [last_match forest_markers rev app first_match].
    now rewrite HF, HD, HR.
Qed.

Lemma marker_priority_witness :
  aprove.determine_result 0 0 (VList ["TRUE"; "FALSE_REACH"]) false
  = Returns RESULT_TRUE_PROP /\
  forest.determine_result 0 0 (VStr "TRUE FALSE_REACH") false
  = Returns RESULT_FALSE_REACH.
Proof.
  destruct marker_priority as (_ & Haprove & _ & Hforest). split.
  - apply (Haprove 0 0 (VList ["TRUE"; "FALSE_REACH"]) false
             (join NL ["TRUE"; "FALSE_REACH"])); reflexivity.
  - apply (Hforest 0 0 (VStr "TRUE FALSE_REACH") false); reflexivity.
Defined.

(** C3, as stated, fails for the Forest adapter: with return code 1, signal 9
    and an empty output no marker occurs, and the verdict is UNKNOWN, not an
    error string with the exit code and the signal. *)
Lemma forest_ignores_exit_code :
  no_marker (occurs (VStr "")) forest_markers = true /\
  forest.determine_result 1 9 (VStr "") false = Returns RESULT_UNKNOWN /\
  embeds_code_and_signal 1 9 RESULT_UNKNOWN = false.
Proof. repeat split; reflexivity. Qed.

(** C3, amended: for the Symbiotic adapter, whenever the timeout flag is not
    set, the stripped output is none of its markers and the return code is
    not zero, determine_result returns the error string
    [Failed with returncode: <code> (signal: <signal>)], which embeds both;
    return code 1, signal 9 and an empty output give
    [Failed with returncode: 1 (signal: 9)]. The Forest and AProVE adapters
    do not look at the return code: when no marker occurs they return
    UNKNOWN. *)
Theorem nonzero_exit_fallback :
  (forall returncode returnsignal s,
     returncode <> 0 -> no_symbiotic_marker s = true ->
     exists message,
       symbiotic3.determine_result returncode returnsignal (VStr s) false
       = Returns (Text message) /\
       message = "Failed with returncode: " +:+ str_of_int returncode
                 +:+ " (signal: " +:+ str_of_int returnsignal +:+ ")" /\
       embeds_code_and_signal returncode returnsignal (Text message) = true) /\
  symbiotic3.determine_result 1 9 (VStr "") false
  = Returns (Text "Failed with returncode: 1 (signal: 9)") /\
  (forall returncode returnsignal output isTimeout,
     returncode <> 0 -> output <> VNone ->
     no_marker (occurs output) forest_markers = true ->
     forest.determine_result returncode returnsignal output isTimeout
     = Returns RESULT_UNKNOWN) /\
  (forall returncode returnsignal output isTimeout text,
     returncode <> 0 -> py_join_lines output = Returns text ->
     no_marker (within text) aprove_markers = true ->
     aprove.determine_result returncode returnsignal output isTimeout
     = Returns RESULT_UNKNOWN).
Proof.
  split; [|split; [|split]].
  - intros rc sg s Hrc Hno. eexists. split; [|split; [reflexivity|]].
    + rewrite symbiotic_no_marker by assumption.
      apply Z.eqb_neq in Hrc. rewrite Hrc. reflexivity.
    + apply failed_message_embeds.
  - reflexivity.
  - intros. now apply forest_no_marker.
  - intros. now apply aprove_no_marker with (text := text).
Qed.

Lemma nonzero_exit_fallback_witness :
  (exists message,
     symbiotic3.determine_result 2 15 (VStr " Segmentation fault ") false
     = Returns (Text message) /\
     message = "Failed with returncode: 2 (signal: 15)" /\
     embeds_code_and_signal 2 15 (Text message) = true) /\
  forest.determine_result 1 9 (VList []) true = Returns RESULT_UNKNOWN /\
  aprove.determine_result 1 9 (VList ["MAYBE"]) false = Returns RESULT_UNKNOWN.
Proof.
  destruct nonzero_exit_fallback as (Hsymbiotic & _ & Hforest & Haprove).
  split; [|split].
  - apply (Hsymbiotic 2 15 " Segmentation fault "); [lia | reflexivity].
  - apply (Hforest 1 9 (VList []) true); [lia | discriminate | reflexivity].
  - apply (Haprove 1 9 (VList ["MAYBE"]) false (join NL ["MAYBE"]));
      [lia | reflexivity | reflexivity].
Defined.

(** C4, as stated, fails for the Symbiotic adapter: with an empty output, no
    timeout and return code zero it returns the text [error (unknown)], not
    the UNKNOWN verdict. *)
Lemma symbiotic_zero_exit_is_error :
  no_symbiotic_marker "" = true /\
  symbiotic3.determine_result 0 0 (VStr "") false = Returns (Text "error (unknown)") /\
  symbiotic3.determine_result 0 0 (VStr "") false <> Returns RESULT_UNKNOWN.
Proof. repeat split; [reflexivity .. | discriminate]. Qed.

(** C4, amended: for the Forest and AProVE adapters, whenever no marker
    occurs in the output, the timeout flag is not set and the return code is
    zero, determine_result returns UNKNOWN; for the Symbiotic adapter, under
    the same conditions (the stripped output is none of TRUE, UNKNOWN,
    FALSE), it returns the text [error (unknown)]. *)
Theorem zero_exit_fallback :
  (forall returnsignal output,
     output <> VNone -> no_marker (occurs output) forest_markers = true ->
     forest.determine_result 0 returnsignal output false = Returns RESULT_UNKNOWN) /\
  (forall returnsignal output text,
     py_join_lines output = Returns text ->
     no_marker (within text) aprove_markers = true ->
     aprove.determine_result 0 returnsignal output false = Returns RESULT_UNKNOWN) /\
  (forall returnsignal s,
     no_symbiotic_marker s = true ->
     symbiotic3.determine_result 0 returnsignal (VStr s) false
     = Returns (Text "error (unknown)")).
Proof.
  split; [|split].
  - intros. now apply forest_no_marker.
  - intros. now apply aprove_no_marker with (text := text).
  - intros sg s Hno. now rewrite symbiotic_no_marker.
Qed.

Lemma zero_exit_fallback_witness :
  forest.determine_result 0 0 (VStr "done") false = Returns RESULT_UNKNOWN /\
  aprove.determine_result 0 0 (VList ["MAYBE"; "done"]) false = Returns RESULT_UNKNOWN /\
  symbiotic3.determine_result 0 0 (VStr "done") false = Returns (Text "error (unknown)").
Proof.
  destruct zero_exit_fallback as (Hforest & Haprove & Hsymbiotic).
  split; [|split].
  - apply (Hforest 0 (VStr "done")); [discriminate | reflexivity].
  - apply (Haprove 0 (VList ["MAYBE"; "done"]) (join NL ["MAYBE"; "done"])); reflexivity.
  - apply (Hsymbiotic 0 "done"); reflexivity.
Defined.

(** C9: the AProVE adapter's determine_result depends on the output alone,
    not on returncode, returnsignal or isTimeout; its scan looks for
    substrings of the joined output, so that every output in which NO occurs
    but none of YES, TRUE and FALSE is classified FALSE_TERMINATION, and so
    is the output made of the single word UNKNOWN, in which NO occurs. *)
Theorem aprove_scans_joined_output :
  (forall returncode returnsignal isTimeout returncode' returnsignal' isTimeout' output,
     aprove.determine_result returncode returnsignal output isTimeout
     = aprove.determine_result returncode' returnsignal' output isTimeout') /\
  (forall returncode returnsignal isTimeout output text,
     py_join_lines output = Returns text ->
     within text "NO" = true -> within text "YES" = false ->
     within text "TRUE" = false -> within text "FALSE" = false ->
     aprove.determine_result returncode returnsignal output isTimeout
     = Returns RESULT_FALSE_TERMINATION) /\
  (forall returncode returnsignal isTimeout lines,
     existsb (contains "NO") lines = true -> existsb (contains "YES") lines = false ->
     existsb (contains "TRUE") lines = false -> existsb (contains "FALSE") lines = false ->
     aprove.determine_result returncode returnsignal (VList lines) isTimeout
     = Returns RESULT_FALSE_TERMINATION) /\
  contains "NO" "UNKNOWN" = true /\
  (forall returncode returnsignal isTimeout,
     aprove.determine_result returncode returnsignal (VList ["UNKNOWN"]) isTimeout
     = Returns RESULT_FALSE_TERMINATION).
Proof.
  assert (Hscan : forall returncode returnsignal isTimeout output text,
     py_join_lines output = Returns text ->
     within text "NO" = true -> within text "YES" = false ->
     within text "TRUE" = false -> within text "FALSE" = false ->
     aprove.determine_result returncode returnsignal output isTimeout
     = Returns RESULT_FALSE_TERMINATION).
  { intros rc sg t output text Hjoin HN HY HT HF.
    rewrite (aprove_first_match _ _ _ _ text Hjoin).
    cbv [first_match aprove_markers]. now rewrite HY, HT, HF, HN. }
  split; [|split; [|split; [|split]]].
  - reflexivity.
  - exact Hscan.
  - intros rc sg t lines HN HY HT HF.
    apply (Hscan rc sg t (VList lines) (join NL lines)); [reflexivity | ..];
      unfold within; rewrite contains_join by (discriminate || reflexivity);
      assumption.
  - reflexivity.
  - reflexivity.
Qed.

Lemma aprove_scans_joined_output_witness :
  aprove.determine_result 0 0 (VList ["proof attempt"; "result: NO"]) false
  = Returns RESULT_FALSE_TERMINATION /\
  aprove.determine_result 3 11 (VList ["UNKNOWN"]) true
  = Returns RESULT_FALSE_TERMINATION.
Proof.
  destruct aprove_scans_joined_output as (_ & _ & Hlines & _ & Hword). split.
  - apply (Hlines 0 0 false ["proof attempt"; "result: NO"]); reflexivity.
  - apply (Hword 3 11 true).
Defined.

(** C10: in the Symbiotic adapter the branch that returns
    [error (no output)] is never taken: strip never gives None, so for no
    input does determine_result return [error (no output)]; an empty output
    with return code zero gives [error (unknown)]. *)
Theorem symbiotic_no_output_unreachable :
  (forall output stripped,
     py_strip output = Returns stripped -> is_None stripped = false) /\
  (forall returncode returnsignal output isTimeout,
     symbiotic3.determine_result returncode returnsignal output isTimeout
     <> Returns (Text "error (no output)")) /\
  (forall returnsignal,
     symbiotic3.determine_result 0 returnsignal (VStr "") false
     = Returns (Text "error (unknown)")).
Proof.
  split; [|split].
  - intros [|s|l] stripped Hstrip; simpl in Hstrip; try discriminate.
    injection Hstrip as <-. reflexivity.
  - intros rc sg output t. unfold symbiotic3.determine_result.
    destruct t; [discriminate|].
    destruct output as [|s|l]; [discriminate | | discriminate].
    cbv [py_strip Py.bind is_None eq_str].
    destruct (String.eqb (strip s) "TRUE"); [discriminate|].
    destruct (String.eqb (strip s) "UNKNOWN"); [discriminate|].
    destruct (String.eqb (strip s) "FALSE"); [discriminate|].
    destruct (rc =? 0)%Z; cbn [negb]; [discriminate|].
    cbn [String.append]. discriminate.
  - reflexivity.
Qed.

Lemma symbiotic_no_output_unreachable_witness :
  is_None (VStr "TRUE") = false /\
  symbiotic3.determine_result 0 0 (VStr "") false <> Returns (Text "error (no output)").
Proof.
  destruct symbiotic_no_output_unreachable as (Hstrip & Hnever & _). split.
  - apply (Hstrip (VStr " TRUE ") (VStr "TRUE")). reflexivity.
  - apply (Hnever 0 0 (VStr "") false).
Defined.

(** ** More on the adapters *)

Lemma contains_nothing (m : string) : m <> "" -> contains m "" = false.
Proof. destruct m; [congruence | reflexivity]. Qed.

(** A marker of two or more characters does not fit into one character. *)
Lemma contains_single_char (m : string) (c : ascii) :
  (2 <= String.length m)%nat -> contains m (String c EmptyString) = false.
Proof.
  destruct m as [|a [|b m]]; simpl; try lia. intros _.
  unfold contains. simpl. destruct (ascii_dec a c); reflexivity.
Qed.

Lemma in_no_char (m s : string) :
  (2 <= String.length m)%nat -> existsb (contains m) (chars s) = false.
Proof.
  intros Hlen. induction s as [|c s IH]; [reflexivity|].
  cbn [chars existsb]. now rewrite contains_single_char, IH.
Qed.

(** X1: handed a single string instead of a list of lines, the AProVE
    adapter answers UNKNOWN whatever the string says: the join puts a line
    feed between any two characters, so none of its markers can occur. *)
Theorem aprove_string_output_is_unknown (returncode returnsignal : Z) (s : string)
    (isTimeout : bool) :
  aprove.determine_result returncode returnsignal (VStr s) isTimeout
  = Returns RESULT_UNKNOWN.
Proof.
  apply aprove_no_marker with (text := join NL (chars s)); [reflexivity|].
  unfold no_marker, aprove_markers, within. cbn [forallb fst].
  rewrite !contains_join by (discriminate || reflexivity).
  rewrite !in_no_char by (cbn; lia). reflexivity.
Qed.

(** X2: on a list of lines the AProVE adapter decides line by line: its
    verdict is that of the first of YES, TRUE, FALSE, NO that occurs within
    some line; a marker split over two lines does not count. *)
Theorem aprove_scans_line_by_line (returncode returnsignal : Z) (lines : list string)
    (isTimeout : bool) :
  aprove.determine_result returncode returnsignal (VList lines) isTimeout
  = Returns (first_match (in_some_line lines) aprove_markers).
Proof.
  rewrite (aprove_first_match _ _ _ _ (join NL lines)) by reflexivity.
  f_equal. unfold aprove_markers, first_match, within, in_some_line.
  now rewrite !contains_join by (discriminate || reflexivity).
Qed.

(** X3: the Forest and AProVE adapters raise exactly when the output is
    None; for every string or list, whatever the exit code, the signal and
    the timeout flag, Forest answers one of UNKNOWN, TRUE_PROP, FALSE_REACH,
    FALSE_DEREF, FALSE_FREE and AProVE one of UNKNOWN, TRUE_PROP,
    FALSE_TERMINATION, never an error string. *)
Theorem forest_and_aprove_stay_in_taxonomy (returncode returnsignal : Z)
    (output : value) (isTimeout : bool) :
  (output = VNone ->
   (exists e, forest.determine_result returncode returnsignal output isTimeout = Raises e) /\
   (exists e, aprove.determine_result returncode returnsignal output isTimeout = Raises e)) /\
  (output <> VNone ->
   (exists v,
      forest.determine_result returncode returnsignal output isTimeout = Returns v /\
      In v [RESULT_UNKNOWN; RESULT_TRUE_PROP; RESULT_FALSE_REACH;
            RESULT_FALSE_DEREF; RESULT_FALSE_FREE]) /\
   (exists v,
      aprove.determine_result returncode returnsignal output isTimeout = Returns v /\
      In v [RESULT_UNKNOWN; RESULT_TRUE_PROP; RESULT_FALSE_TERMINATION])).
Proof.
  split.
  - intros ->. split; eexists; reflexivity.
  - intros Hsome. split.
    + rewrite forest_last_match by assumption. eexists. split; [reflexivity|].
      cbv [last_match forest_markers rev app first_match].
      destruct (occurs output "FALSE_FREE"), (occurs output "FALSE_DEREF"),
        (occurs output "FALSE_REACH"), (occurs output "TRUE"); cbn; tauto.
    + assert (Hjoin : exists text, py_join_lines output = Returns text)
        by (destruct output; [congruence | eexists; reflexivity ..]).
      destruct Hjoin as [text Hjoin].
      rewrite (aprove_first_match _ _ _ _ text Hjoin). eexists. split; [reflexivity|].
      cbv [aprove_markers first_match].
      destruct (within text "YES"), (within text "TRUE"),
        (within text "FALSE"), (within text "NO"); cbn; tauto.
Qed.

Lemma lstrip_blank_append (ws s : string) :
  blank ws = true -> lstrip (ws +:+ s) = lstrip s.
Proof.
  induction ws as [|c ws IH]; [reflexivity|].
  cbn [blank]. intros Hws. apply andb_prop in Hws as [Hc Hws].
  cbn [String.append lstrip]. rewrite Hc. now apply IH.
Qed.

Lemma rstrip_blank (ws : string) : blank ws = true -> rstrip ws = "".
Proof.
  induction ws as [|c ws IH]; [reflexivity|].
  cbn [blank]. intros Hws. apply andb_prop in Hws as [Hc Hws].
  cbn [rstrip]. now rewrite IH, Hc.
Qed.

Lemma rstrip_append_blank (s ws : string) :
  blank ws = true -> rstrip (s +:+ ws) = rstrip s.
Proof.
  intros Hws. induction s as [|c s IH].
  - now apply rstrip_blank.
  - cbn [String.append rstrip]. now rewrite IH.
Qed.

Lemma lstrip_solid (s : string) : starts_solid s = true -> lstrip s = s.
Proof.
  destruct s as [|c s]; [discriminate|].
  cbn [starts_solid lstrip]. intros Hc. apply negb_true_iff in Hc. now rewrite Hc.
Qed.

(** White space around a text that itself starts and ends with something
    else is what [strip] takes away. *)
Lemma strip_padded (ws1 core ws2 : string) :
  blank ws1 = true -> blank ws2 = true ->
  starts_solid core = true -> rstrip core = core ->
  strip (ws1 +:+ core +:+ ws2) = core.
Proof.
  intros Hws1 Hws2 Hstart Hend. unfold strip.
  rewrite lstrip_blank_append by assumption.
  rewrite lstrip_solid.
  - now rewrite rstrip_append_blank.
  - destruct core; [discriminate | exact Hstart].
Qed.

(** X4: for the Symbiotic adapter a verdict word counts with any white
    space before and after it, and then decides alone: TRUE, UNKNOWN or
    FALSE, padded on either side with any characters for which
    [str.isspace] holds (blanks, tabs, line ends, the separators 28 to 31,
    U+0085, U+00A0), gives TRUE_PROP, UNKNOWN or FALSE_REACH for every
    return code and signal. *)
Theorem symbiotic_ignores_padding (returncode returnsignal : Z)
    (ws1 marker ws2 : string) :
  blank ws1 = true -> blank ws2 = true -> In marker symbiotic_markers ->
  symbiotic3.determine_result returncode returnsignal
    (VStr (ws1 +:+ marker +:+ ws2)) false
  = Returns (symbiotic_verdict marker).
Proof.
  intros Hws1 Hws2 Hmarker.
  cbv [symbiotic3.determine_result py_strip Py.bind is_None eq_str].
  rewrite strip_padded; try assumption;
    destruct Hmarker as [<-|[<-|[<-|[]]]]; reflexivity.
Qed.

(** X5: the Symbiotic adapter gives a verdict of the taxonomy only when the
    stripped output is exactly the verdict word: TRUE_PROP exactly for TRUE,
    UNKNOWN exactly for UNKNOWN, FALSE_REACH exactly for FALSE; a verdict
    word inside a longer text does not count, and one followed by a
    no-break space does, as [strip] takes that away. *)
Theorem symbiotic_needs_exact_word (returncode returnsignal : Z) (s : string) :
  (symbiotic3.determine_result returncode returnsignal (VStr s) false
   = Returns RESULT_TRUE_PROP <-> strip s = "TRUE") /\
  (symbiotic3.determine_result returncode returnsignal (VStr s) false
   = Returns RESULT_UNKNOWN <-> strip s = "UNKNOWN") /\
  (symbiotic3.determine_result returncode returnsignal (VStr s) false
   = Returns RESULT_FALSE_REACH <-> strip s = "FALSE").
Proof.
  cbv [symbiotic3.determine_result py_strip Py.bind is_None eq_str].
  destruct (String.eqb_spec (strip s) "TRUE") as [->|HT].
  { repeat split; intros; (reflexivity || discriminate). }
  destruct (String.eqb_spec (strip s) "UNKNOWN") as [->|HU].
  { repeat split; intros; (reflexivity || discriminate). }
  destruct (String.eqb_spec (strip s) "FALSE") as [->|HF].
  { repeat split; intros; (reflexivity || discriminate). }
  destruct (returncode =? 0)%Z; cbn [negb];
    repeat split; intros; (discriminate || contradiction).
Qed.

(** X6: the Symbiotic adapter raises exactly when the run is not flagged as
    a timeout and the output is not a string; with the timeout flag it
    answers [timeout] without looking at the output at all. *)
Theorem symbiotic_raises_iff (returncode returnsignal : Z) (output : value)
    (isTimeout : bool) :
  ((exists e, symbiotic3.determine_result returncode returnsignal output isTimeout
              = Raises e)
   <-> isTimeout = false /\ forall s, output <> VStr s) /\
  (isTimeout = true ->
   symbiotic3.determine_result returncode returnsignal output isTimeout
   = Returns (Text "timeout")).
Proof.
  split.
  - destruct isTimeout.
    + split; [intros [e He]; discriminate | intros [Hflag _]; discriminate].
    + destruct output as [|s|l].
      * split; [intros _; split; [reflexivity | discriminate] | intros _; eexists; reflexivity].
      * split.
        -- intros [e He]. exfalso. revert He.
           cbv [symbiotic3.determine_result py_strip Py.bind is_None eq_str].
           destruct (String.eqb (strip s) "TRUE"); [discriminate|].
           destruct (String.eqb (strip s) "UNKNOWN"); [discriminate|].
           destruct (String.eqb (strip s) "FALSE"); [discriminate|].
           destruct (negb (returncode =? 0)%Z); discriminate.
        -- intros [_ Hnot]. now elim (Hnot s).
      * split; [intros _; split; [reflexivity | discriminate] | intros _; eexists; reflexivity].
  - intros ->. reflexivity.
Qed.

(** X7: the Forest command line is built for exactly one task: with none or
    several the assertion fails; with one, the executable comes first and
    the task last, the property file (None included) is the token after
    [-propertyfile], every option is passed on, and the options add five
    tokens. *)
Theorem forest_cmdline_shape (executable : string) (options tasks : list string)
    (propertyfile : option string) (rlimits : list (string * Z)) :
  (List.length tasks <> 1%nat ->
   forest.cmdline executable options tasks propertyfile rlimits
   = AssertionError "only one inputfile supported") /\
  (forall task, tasks = [task] ->
   exists argv,
     forest.cmdline executable options tasks propertyfile rlimits = Passed argv /\
     hd None argv = Some executable /\
     last argv None = Some task /\
     nth 1 argv None = Some "-propertyfile" /\
     nth 2 argv None = propertyfile /\
     (forall o, In o options -> In (Some o) argv) /\
     List.length argv = (List.length options + 5)%nat).
Proof.
  split.
  - intros Hlen. unfold forest.cmdline.
    apply Nat.eqb_neq in Hlen. now rewrite Hlen.
  - intros task ->. eexists. split; [reflexivity|]. repeat split.
    + transitivity
        (last (([Some executable; Some "-propertyfile"; propertyfile]
                ++ map Some options ++ [Some "-svcomp_only_output"])
               ++ [Some task])%list None); [|apply last_last].
      f_equal. rewrite <- !app_assoc. reflexivity.
    + intros o Ho. cbn [app]. do 3 right. apply in_or_app. left. now apply in_map.
    + cbn [app map hd List.length]. rewrite length_app, length_map. cbn. lia.
Qed.

(** X8: the Symbiotic [cmdline] appends the [--prp] option to the list the
    caller passed, so calls on the same list pile the options up: after one
    call per property file, the list holds the caller's options followed by
    one [--prp] option per call, and the k-th command line carries the
    options of the first k calls. A failed assertion (not exactly one task)
    leaves the list as it was. *)
Theorem symbiotic_cmdline_accumulates (executable : string) (options : list string)
    (task : string) (propertyfiles : list string) :
  fst (cmdline_each executable options task propertyfiles)
  = (options ++ map (String.append "--prp=") propertyfiles)%list /\
  snd (cmdline_each executable options task propertyfiles)
  = map (fun k => Passed ([executable] ++ options
                          ++ map (String.append "--prp=") (firstn k propertyfiles)
                          ++ [task])%list)
        (seq 1 (List.length propertyfiles)) /\
  (forall tasks propertyfile rlimits,
     List.length tasks <> 1%nat ->
     symbiotic3.cmdline executable options tasks propertyfile rlimits
     = (options, AssertionError "")).
Proof.
  split; [|split].
  - revert options. induction propertyfiles as [|p rest IH]; intros options.
    + cbn. now rewrite app_nil_r.
    + cbn [cmdline_each symbiotic3.cmdline List.length Nat.eqb].
      specialize (IH (options ++ ["--prp=" +:+ p])%list).
      destruct (cmdline_each executable (options ++ ["--prp=" +:+ p]) task rest)
        as [options' rs].
      cbn [fst] in *. rewrite IH, <- app_assoc. reflexivity.
  - revert options. induction propertyfiles as [|p rest IH]; intros options.
    + reflexivity.
    + cbn [cmdline_each symbiotic3.cmdline List.length Nat.eqb].
      specialize (IH (options ++ ["--prp=" +:+ p])%list).
      destruct (cmdline_each executable (options ++ ["--prp=" +:+ p]) task rest)
        as [options' rs].
      cbn [snd] in *. rewrite IH. cbn [seq map firstn]. f_equal.
      * now rewrite <- !app_assoc.
      * rewrite <- (seq_shift _ 1), map_map. apply map_ext. intros k.
        cbn [firstn map]. now rewrite <- !app_assoc.
  - intros tasks propertyfile rlimits Hlen. unfold symbiotic3.cmdline.
    apply Nat.eqb_neq in Hlen. now rewrite Hlen.
Qed.

(** ** Paths *)

Lemma head_component (base : string) : no_sep base = true -> posixpath.head base = "".
Proof.
  induction base as [|c base IH]; [reflexivity|].
  cbn [no_sep]. intros Hbase. apply andb_prop in Hbase as [Hc Hbase].
  cbn [posixpath.head]. rewrite IH by assumption.
  apply negb_true_iff in Hc. now rewrite Hc.
Qed.

Lemma head_split (folder base : string) :
  no_sep base = true -> posixpath.head (folder +:+ "/" +:+ base) = folder +:+ "/".
Proof.
  intros Hbase. induction folder as [|c folder IH].
  - cbn [String.append posixpath.head]. now rewrite head_component.
  - cbn [String.append posixpath.head]. cbn [String.append] in IH. rewrite IH.
    now destruct folder.
Qed.

Lemma rstrip_seps_append (p : string) :
  posixpath.rstrip_seps (p +:+ "/") = posixpath.rstrip_seps p.
Proof.
  induction p as [|c p IH]; [reflexivity|].
  cbn [String.append posixpath.rstrip_seps]. now rewrite IH.
Qed.

Lemma rstrip_seps_solid (p : string) :
  posixpath.ends_with_sep p = false -> posixpath.rstrip_seps p = p.
Proof.
  induction p as [|c p IH]; [reflexivity|].
  destruct p as [|c' p].
  - cbn. intros ->. reflexivity.
  - intros Hend. change (posixpath.ends_with_sep (String c' p) = false) in Hend.
    cbn [posixpath.rstrip_seps] in *. now rewrite IH.
Qed.

Lemma all_seps_solid (p : string) :
  p <> "" -> posixpath.ends_with_sep p = false -> posixpath.all_seps (p +:+ "/") = false.
Proof.
  induction p as [|c p IH]; [congruence|]. intros _ Hend.
  destruct p as [|c' p].
  - cbn in Hend. cbn. now rewrite Hend.
  - change (posixpath.ends_with_sep (String c' p) = false) in Hend.
    cbn [String.append posixpath.all_seps] in *.
    rewrite IH by (assumption || discriminate). apply andb_false_r.
Qed.

Lemma dirname_split (folder base : string) :
  folder <> "" -> posixpath.ends_with_sep folder = false -> no_sep base = true ->
  posixpath.dirname (folder +:+ "/" +:+ base) = folder.
Proof.
  intros Hne Hend Hbase. unfold posixpath.dirname.
  rewrite head_split by assumption.
  rewrite all_seps_solid by assumption.
  replace (String.eqb (folder +:+ "/") "") with false
    by (destruct folder; [congruence | reflexivity]).
  cbn [negb andb]. rewrite rstrip_seps_append. now apply rstrip_seps_solid.
Qed.

Lemma ends_with_sep_append (a b : string) :
  b <> "" -> posixpath.ends_with_sep (a +:+ b) = posixpath.ends_with_sep b.
Proof.
  intros Hb. induction a as [|c a IH]; [reflexivity|].
  cbn [String.append]. destruct (a +:+ b) eqn:Hab.
  - destruct a, b; cbn in Hab; congruence.
  - exact IH.
Qed.

Lemma prefix_sep_cons (c : ascii) (s : string) :
  String.prefix "/" (String c s) = if ascii_dec "/" c then true else false.
Proof.
  change (String.prefix "/" (String c s))
    with (if ascii_dec "/" c then String.prefix "" s else false).
  destruct (ascii_dec "/" c); [apply prefix_empty | reflexivity].
Qed.

Lemma prefix_sep_append (a b : string) :
  a <> "" -> String.prefix "/" (a +:+ b) = String.prefix "/" a.
Proof.
  destruct a as [|c a]; [congruence|]. intros _.
  cbn [String.append]. now rewrite !prefix_sep_cons.
Qed.

Lemma prefix_sep_component (base : string) :
  no_sep base = true -> String.prefix "/" base = false.
Proof.
  destruct base as [|c base]; [reflexivity|].
  cbn [no_sep]. intros Hbase. apply andb_prop in Hbase as [Hc _].
  apply negb_true_iff in Hc. unfold posixpath.is_sep in Hc.
  apply Ascii.eqb_neq in Hc. rewrite prefix_sep_cons.
  destruct (ascii_dec "/" c); [congruence | reflexivity].
Qed.

(** [make_path] for a file given relative to a folder that does not end
    with the separator. *)
Lemma join_beside (folder f : string) :
  folder <> "" -> posixpath.ends_with_sep folder = false ->
  String.prefix "/" f = false ->
  posixpath.join "." [folder; f] = anchor folder +:+ folder +:+ "/" +:+ f.
Proof.
  intros Hne Hend Hf. unfold posixpath.join, anchor. cbn [fold_left].
  unfold posixpath.join_step at 2.
  destruct (String.prefix "/" folder) eqn:Habs.
  - unfold posixpath.join_step. rewrite Hf, Hend.
    replace (String.eqb folder "") with false
      by (destruct folder; [congruence | reflexivity]).
    reflexivity.
  - cbn [String.eqb posixpath.ends_with_sep posixpath.is_sep Ascii.eqb Bool.eqb orb
         String.append].
    unfold posixpath.join_step. rewrite Hf.
    change (String "." (String "/" folder)) with ("./" +:+ folder).
    rewrite ends_with_sep_append, Hend by assumption. reflexivity.
Qed.

(** X19: the Symbiotic adapter lists the executable and twelve auxiliary
    files that lie beside it: for an executable in a folder (a path that is
    not empty and does not end with the separator), every listed path is
    the folder's path followed by the file's name, put under the current
    directory when the folder is relative and left as it is when the folder
    is absolute; for an executable given by its bare name, every listed path
    is in the current directory. *)
Theorem symbiotic_program_files_beside_executable :
  (forall folder base,
     folder <> "" -> posixpath.ends_with_sep folder = false -> no_sep base = true ->
     symbiotic3.program_files (folder +:+ "/" +:+ base)
     = map (fun f => anchor folder +:+ folder +:+ "/" +:+ f) (base :: symbiotic_auxiliary)) /\
  (forall base,
     no_sep base = true ->
     symbiotic3.program_files base = map (String.append "./") (base :: symbiotic_auxiliary)).
Proof.
  split.
  - intros folder base Hne Hend Hbase. unfold symbiotic3.program_files.
    rewrite dirname_split by assumption.
    rewrite !(join_beside folder) by (assumption || reflexivity).
    cbn [map symbiotic_auxiliary]. f_equal.
    unfold posixpath.join, anchor. cbn [fold_left].
    change (posixpath.join_step "." "") with "./".
    unfold posixpath.join_step.
    rewrite prefix_sep_append by assumption.
    now destruct (String.prefix "/" folder).
  - intros base Hbase. unfold symbiotic3.program_files, posixpath.dirname.
    rewrite head_component by assumption. cbn [String.eqb negb andb].
    cbn [map symbiotic_auxiliary]. f_equal.
    unfold posixpath.join. cbn [fold_left].
    change (posixpath.join_step "." "") with "./".
    unfold posixpath.join_step.
    now rewrite prefix_sep_component.
Qed.

Lemma forest_and_aprove_stay_in_taxonomy_witness :
  (exists e, forest.determine_result 1 9 VNone true = Raises e) /\
  (exists v,
     aprove.determine_result 1 9 (VList ["proof: YES"]) true = Returns v /\
     In v [RESULT_UNKNOWN; RESULT_TRUE_PROP; RESULT_FALSE_TERMINATION]).
Proof.
  split.
  - apply (forest_and_aprove_stay_in_taxonomy 1 9 VNone true). reflexivity.
  - apply (forest_and_aprove_stay_in_taxonomy 1 9 (VList ["proof: YES"]) true).
    discriminate.
Defined.

Lemma symbiotic_ignores_padding_witness :
  symbiotic3.determine_result 1 9 (VStr ("  " +:+ "FALSE" +:+ NL)) false
  = Returns RESULT_FALSE_REACH /\
  symbiotic3.determine_result 0 0 (VStr ((NEL +:+ " ") +:+ "TRUE" +:+ NBSP)) false
  = Returns RESULT_TRUE_PROP.
Proof.
  split.
  - apply (symbiotic_ignores_padding 1 9 "  " "FALSE" NL).
    + reflexivity.
    + reflexivity.
    + right. right. left. reflexivity.
  - apply (symbiotic_ignores_padding 0 0 (NEL +:+ " ") "TRUE" NBSP).
    + reflexivity.
    + reflexivity.
    + left. reflexivity.
Defined.

Lemma symbiotic_needs_exact_word_witness :
  strip " TRUE " = "TRUE" /\
  symbiotic3.determine_result 0 0 (VStr "result: TRUE") false <> Returns RESULT_TRUE_PROP /\
  symbiotic3.determine_result 0 0 (VStr ("TRUE" +:+ NBSP)) false = Returns RESULT_TRUE_PROP.
Proof.
  split; [|split].
  - apply (symbiotic_needs_exact_word 0 0 " TRUE "). reflexivity.
  - intros Hverdict. apply (symbiotic_needs_exact_word 0 0 "result: TRUE") in Hverdict.
    discriminate Hverdict.
  - apply (symbiotic_needs_exact_word 0 0 ("TRUE" +:+ NBSP)). reflexivity.
Defined.

Lemma symbiotic_raises_iff_witness :
  (exists e, symbiotic3.determine_result 0 0 (VList ["TRUE"]) false = Raises e) /\
  symbiotic3.determine_result 0 0 (VList ["TRUE"]) true = Returns (Text "timeout").
Proof.
  split.
  - apply (symbiotic_raises_iff 0 0 (VList ["TRUE"]) false).
    split; [reflexivity | discriminate].
  - apply (symbiotic_raises_iff 0 0 (VList ["TRUE"]) true). reflexivity.
Defined.

Lemma forest_cmdline_shape_witness :
  forest.cmdline "forest" ["-v"] ["a.c"; "b.c"] (Some "p.prp") []
  = AssertionError "only one inputfile supported" /\
  exists argv,
    forest.cmdline "forest" ["-v"] ["a.c"] None [] = Passed argv /\
    hd None argv = Some "forest" /\
    last argv None = Some "a.c" /\
    nth 1 argv None = Some "-propertyfile" /\
    nth 2 argv None = None /\
    (forall o, In o ["-v"] -> In (Some o) argv) /\
    List.length argv = 6%nat.
Proof.
  split.
  - apply (forest_cmdline_shape "forest" ["-v"] ["a.c"; "b.c"] (Some "p.prp") []).
    cbn. lia.
  - apply (proj2 (forest_cmdline_shape "forest" ["-v"] ["a.c"] None []) "a.c").
    reflexivity.
Defined.

Lemma symbiotic_cmdline_accumulates_witness :
  fst (cmdline_each "symbiotic" ["--64"] "a.c" ["p.prp"; "q.prp"])
  = ["--64"; "--prp=p.prp"; "--prp=q.prp"] /\
  symbiotic3.cmdline "symbiotic" ["--64"] [] (Some "p.prp") []
  = (["--64"], AssertionError "").
Proof.
  split.
  - apply (symbiotic_cmdline_accumulates "symbiotic" ["--64"] "a.c" ["p.prp"; "q.prp"]).
  - apply (symbiotic_cmdline_accumulates "symbiotic" ["--64"] "a.c" []).
    cbn. lia.
Defined.

Lemma symbiotic_program_files_beside_executable_witness :
  symbiotic3.program_files "tools/symbiotic"
  = map (fun f => "./tools/" +:+ f) ("symbiotic" :: symbiotic_auxiliary) /\
  symbiotic3.program_files "/opt/sym/symbiotic"
  = map (fun f => "/opt/sym/" +:+ f) ("symbiotic" :: symbiotic_auxiliary) /\
  symbiotic3.program_files "symbiotic"
  = map (String.append "./") ("symbiotic" :: symbiotic_auxiliary).
Proof.
  destruct symbiotic_program_files_beside_executable as [Hfolder Hbare].
  split; [|split].
  - apply (Hfolder "tools" "symbiotic"); [discriminate | reflexivity | reflexivity].
  - apply (Hfolder "/opt/sym" "symbiotic"); [discriminate | reflexivity | reflexivity].
  - apply (Hbare "symbiotic"). reflexivity.
Defined.


(** * Control flow *)

Section Flow.
Context `{Platform}.

Lemma bind_Returns {A B} (m : M A) (k : A -> M B) s s1 a :
  m s = (s1, Returns a) -> IO.bind m k s = k a s1.
Proof. intros Hm. unfold IO.bind. now rewrite Hm. Qed.

Lemma bind_Raises {A B} (m : M A) (k : A -> M B) s s1 e :
  m s = (s1, Raises e) -> IO.bind m k s = (s1, Raises e).
Proof. intros Hm. unfold IO.bind. now rewrite Hm. Qed.

Lemma bind_inv {A B} (m : M A) (k : A -> M B) s s' r :
  IO.bind m k s = (s', r) ->
  (exists s1 a, m s = (s1, Returns a) /\ k a s1 = (s', r)) \/
  (exists e, m s = (s', Raises e) /\ r = Raises e).
Proof.
  unfold IO.bind. destruct (m s) as [s1 [a|e]]; intros Hk.
  - left. now exists s1, a.
  - right. exists e. now injection Hk as -> <-.
Qed.

Lemma bind_Returns_inv {A B} (m : M A) (k : A -> M B) s s' b :
  IO.bind m k s = (s', Returns b) ->
  exists s1 a, m s = (s1, Returns a) /\ k a s1 = (s', Returns b).
Proof.
  intros Hk. apply bind_inv in Hk as [Hk | (e & _ & Hr)]; [exact Hk | discriminate].
Qed.

Section Frame.
Variable I : State -> State -> Prop.
Hypothesis I_refl : forall s, I s s.
Hypothesis I_trans : forall s1 s2 s3, I s1 s2 -> I s2 s3 -> I s1 s3.

Lemma preserves_ret {A} (a : A) : preserves I (ret a).
Proof. intros s s' r [= <- _]. apply I_refl. Qed.

Lemma preserves_raise {A} (e : exn) : preserves I (@raise _ A e).
Proof. intros s s' r [= <- _]. apply I_refl. Qed.

Lemma preserves_observe {A} (f : World -> A) : preserves I (observe f).
Proof. intros s s' r [= <- _]. apply I_refl. Qed.

Lemma preserves_bind {A B} (m : M A) (k : A -> M B) :
  preserves I m -> (forall a, preserves I (k a)) -> preserves I (IO.bind m k).
Proof.
  intros Hm Hk s s' r Hrun.
  apply bind_inv in Hrun as [(s1 & a & Hm1 & Hk1) | (e & Hm1 & _)].
  - eapply I_trans; [eapply Hm | eapply Hk]; eassumption.
  - eapply Hm; eassumption.
Qed.

Lemma preserves_try_finally {A} (body : M A) (final : M unit) :
  preserves I body -> preserves I final -> preserves I (try_finally body final).
Proof.
  intros Hb Hf s s' r. unfold try_finally.
  destruct (body s) as [s1 r1] eqn:Hbody.
  destruct (final s1) as [s2 [u|e]] eqn:Hfinal; intros [= <- _];
    (eapply I_trans; [eapply Hb | eapply Hf]; eassumption).
Qed.

Lemma preserves_try_except {A} (body : M A) catches (handler : exn -> M A) :
  preserves I body -> (forall e, preserves I (handler e)) ->
  preserves I (try_except body catches handler).
Proof.
  intros Hb Hh s s' r. unfold try_except.
  destruct (body s) as [s1 [a|e]] eqn:Hbody.
  - intros [= <- _]. eapply Hb; eassumption.
  - destruct (catches e).
    + intros Hrun. eapply I_trans; [eapply Hb | eapply Hh]; eassumption.
    + intros [= <- _]. eapply Hb; eassumption.
Qed.

Lemma preserves_if {A} (b : bool) (m1 m2 : M A) :
  preserves I m1 -> preserves I m2 -> preserves I (if b then m1 else m2).
Proof. now destruct b. Qed.

Hypothesis I_world : forall s w, I s (set_world w s).

Lemma preserves_invoke {A} (f : call A) : preserves I (invoke f).
Proof.
  intros s s' r. unfold invoke. destruct (f (world s)) as [w r1].
  intros [= <- _]. apply I_world.
Qed.

Lemma preserves_modify (f : State -> State) :
  (forall s, I s (f s)) -> preserves I (modify f).
Proof. intros Hf s s' r [= <- _]. apply Hf. Qed.

Lemma preserves_emit (ev : event) :
  (forall s, I s (record ev s)) -> preserves I (emit ev).
Proof. intros Hev s s' r [= <- _]. apply Hev. Qed.

Lemma preserves_invoke_noting {A} (ev : outcome A -> event) (f : call A) :
  (forall s r, I s (record (ev r) s)) -> preserves I (invoke_noting ev f).
Proof.
  intros Hev s s' r. unfold invoke_noting. destruct (f (world s)) as [w r1].
  intros [= <- _]. eapply I_trans; [apply I_world | apply Hev].
Qed.

End Frame.
End Flow.

(** * The orchestrator *)

Section Orchestrator.
Context {P : Platform} {C : Collaborators}.

Lemma check_files_step (arg : string) (rest : list string) (s : State) :
  BenchExec.check_files (arg :: rest) s =
  if missing arg (world s)
  then (record (missing_file_report arg) s, Raises (SystemExit (ExitCode 2)))
  else BenchExec.check_files rest s.
Proof.
  unfold missing. cbn [BenchExec.check_files].
  cbv [IO.bind observe parser_error emit sys_exit raise ret missing_file_report].
  destruct (negb (os_path_exists arg (world s)) || negb (os_path_isfile arg (world s)));
    reflexivity.
Qed.

Lemma check_files_present (args : list string) (s : State) :
  (forall f, In f args -> missing f (world s) = false) ->
  BenchExec.check_files args s = (s, Returns tt).
Proof.
  induction args as [|arg rest IH]; intros Hall; [reflexivity|].
  rewrite check_files_step, (Hall arg) by (now left).
  apply IH. intros f Hf. apply Hall. now right.
Qed.

Lemma check_files_first_missing (pre : list string) (arg : string) (post : list string)
    (s : State) :
  (forall f, In f pre -> missing f (world s) = false) ->
  missing arg (world s) = true ->
  BenchExec.check_files (pre ++ arg :: post) s
  = (record (missing_file_report arg) s, Raises (SystemExit (ExitCode 2))).
Proof.
  induction pre as [|f0 pre IH]; intros Hpre Harg.
  - cbn [app]. now rewrite check_files_step, Harg.
  - change (((f0 :: pre) ++ arg :: post)%list) with (f0 :: (pre ++ arg :: post))%list.
    rewrite check_files_step, (Hpre f0) by (now left).
    apply IH; [|exact Harg]. intros f Hf. apply Hpre. now right.
Qed.

(** C1, amended: when one or more configured files are missing (do not exist
    or are not regular files), start() reports the first of them in the order
    of the list through the argument parser's error path and exits with
    status 2 at once, before anything is executed; the missing files after it
    are not reported. *)
Theorem start_reports_first_missing_file (argv : list string) (s : State) (w : World)
    (cfg : Config) (pre : list string) (arg : string) (post : list string) :
  parse_args (tl argv) (world s) = (w, Returns cfg) ->
  files cfg = (pre ++ arg :: post)%list ->
  (forall f, In f pre -> missing f w = false) ->
  missing arg w = true ->
  BenchExec.start argv s
  = (record (missing_file_report arg) (set_config (Some cfg) (set_world w s)),
     Raises (SystemExit (ExitCode 2))).
Proof.
  intros Hparse Hfiles Hpre Harg. unfold BenchExec.start.
  rewrite (bind_Returns _ _ s (set_world w s) cfg)
    by (unfold invoke; now rewrite Hparse).
  rewrite (bind_Returns _ _ _ (set_config (Some cfg) (set_world w s)) tt) by reflexivity.
  apply bind_Raises. rewrite Hfiles. now apply check_files_first_missing.
Qed.

(** How [main] ends, given how [start] ends. *)
Lemma main_unfold (benchexec : bool) (argv : option (list string)) (s : State) :
  main benchexec argv s =
  match BenchExec.start (effective_argv argv) (entry benchexec s) with
  | (s', Returns rc) => (s', Raises (SystemExit (ExitCode rc)))
  | (s', Raises e) =>
      if is_KeyboardInterrupt e
      then IO.bind BenchExec.stop
             (fun _ => emit (PrintOut (NL +:+ NL
                +:+ "Script was interrupted by user, some runs may not be done."))) s'
      else (s', Raises e)
  end.
Proof.
  unfold main, entry, effective_argv.
  cbv [IO.bind try_except emit sys_exit raise ret modify BenchExec.new BenchExec.__init__ fst].
  destruct benchexec;
    match goal with
    | |- context [BenchExec.start ?a ?st] => destruct (BenchExec.start a st) as [s' [rc|e]]
    end; reflexivity.
Qed.

(** [start] up to its loop, when the command line parses and every file is there. *)
Lemma start_ready (argv : list string) (s : State) (w : World) (cfg : Config) :
  parse_args (tl argv) (world s) = (w, Returns cfg) ->
  (forall f, In f (files cfg) -> missing f w = false) ->
  BenchExec.start argv s =
  IO.bind (BenchExec.run_files (files (normalised cfg w)) 0)
    (fun returnCode =>
       IO.bind (logging_debug "I think my job is done. Have a nice day!")
         (fun _ => ret returnCode))
    (ready cfg w s).
Proof.
  intros Hparse Hfiles. unfold BenchExec.start.
  rewrite (bind_Returns _ _ s (set_world w s) cfg)
    by (unfold invoke; now rewrite Hparse).
  rewrite (bind_Returns _ _ _ (set_config (Some cfg) (set_world w s)) tt) by reflexivity.
  rewrite (bind_Returns _ _ _ (set_config (Some cfg) (set_world w s)) tt)
    by (now apply check_files_present).
  unfold ready, normalised.
  cbv [IO.bind observe BenchExec.setup_logging BenchExec.self_config
       BenchExec.load_executor ret emit modify set_config set_world set_executor
       record world executor config].
  destruct (os_path_isdir (output_path cfg) w); cbn [debug set_output_path];
    destruct (debug cfg); reflexivity.
Qed.

Lemma run_files_stopped (args : list string) (returnCode : Z) (s : State) :
  stopped_by_interrupt (world s) = true ->
  BenchExec.run_files args returnCode s = (s, Returns returnCode).
Proof.
  intros Hstop. destruct args as [|arg rest]; [reflexivity|].
  cbn [BenchExec.run_files].
  cbv [IO.bind BenchExec.self_stopped_by_interrupt observe]. now rewrite Hstop.
Qed.

(** One turn of the loop of [start]. *)
Lemma run_files_step (arg : string) (rest : list string) (returnCode : Z) (s : State) :
  stopped_by_interrupt (world s) = false ->
  BenchExec.run_files (arg :: rest) returnCode s =
  match BenchExec.execute_benchmark arg
          (record (Logging DEBUG ("Benchmark " +:+ repr arg +:+ " is started.")) s) with
  | (s1, Returns rc) =>
      BenchExec.run_files rest (py_or returnCode rc)
        (record (Logging DEBUG ("Benchmark " +:+ repr arg +:+ " is done.")) s1)
  | (s1, Raises e) => (s1, Raises e)
  end.
Proof.
  intros Hstop. cbn [BenchExec.run_files].
  cbv [IO.bind BenchExec.self_stopped_by_interrupt observe logging_debug emit].
  rewrite Hstop.
  match goal with
  | |- context [BenchExec.execute_benchmark ?a ?st] =>
      destruct (BenchExec.execute_benchmark a st) as [s1 [rc|e]]
  end; reflexivity.
Qed.

(** The loop over a list of files is the loop over its first part followed
    by the loop over the rest. *)
Lemma run_files_app (pre rest : list string) (returnCode : Z) (s : State) :
  BenchExec.run_files (pre ++ rest) returnCode s =
  match BenchExec.run_files pre returnCode s with
  | (s1, Returns rc1) => BenchExec.run_files rest rc1 s1
  | (s1, Raises e) => (s1, Raises e)
  end.
Proof.
  revert returnCode s. induction pre as [|arg pre IH]; intros returnCode s.
  - reflexivity.
  - change (((arg :: pre) ++ rest)%list) with (arg :: (pre ++ rest))%list.
    destruct (stopped_by_interrupt (world s)) eqn:Hstop.
    + rewrite !run_files_stopped by assumption. reflexivity.
    + rewrite !run_files_step by assumption.
      match goal with
      | |- context [BenchExec.execute_benchmark ?a ?st] =>
          destruct (BenchExec.execute_benchmark a st) as [s1 [rc|e]]
      end; [apply IH | reflexivity].
Qed.

(** [execute_benchmark] up to the construction of the benchmark. *)
Lemma execute_benchmark_constructs (benchmark_file : string) (s : State) (cfg : Config)
    (w : World) (r : outcome Benchmark) :
  config s = Some cfg ->
  Benchmark_new benchmark_file cfg (timestamp cfg (world s)) (world s) = (w, r) ->
  BenchExec.execute_benchmark benchmark_file s =
  match r with
  | Raises e => (set_world w s, Raises e)
  | Returns benchmark =>
      IO.bind (BenchExec.check_existing_results benchmark) (fun _ =>
      IO.bind (BenchExec.self_executor_method "init") (fun ex =>
      IO.bind (emit (ExecutorInit benchmark)) (fun _ =>
      IO.bind (invoke (Executor.init ex cfg benchmark)) (fun _ =>
      IO.bind (emit ExecutorGetSystemInfo) (fun _ =>
      IO.bind (invoke (Executor.get_system_info ex)) (fun system_info =>
      IO.bind (invoke (OutputHandler_new benchmark system_info)) (fun output_handler =>
      IO.bind (logging_debug
                 ("I'm benchmarking " +:+ repr benchmark_file +:+ " consisting of "
                  +:+ str_of_int (Z.of_nat (List.length (run_sets benchmark)))
                  +:+ " run sets.")) (fun _ =>
      IO.bind (BenchExec.run_and_clean_up benchmark output_handler) (fun result =>
      IO.bind (BenchExec.commit_results cfg output_handler) (fun _ =>
      ret result)))))))))) (set_world w s)
  end.
Proof.
  intros Hcfg Hnew. unfold BenchExec.execute_benchmark, timestamp in *.
  rewrite (bind_Returns _ _ s s cfg)
    by (unfold BenchExec.self_config; now rewrite Hcfg).
  destruct (start_time cfg) as [t|].
  - rewrite (bind_Returns _ _ s s t) by reflexivity.
    destruct r as [b|e].
    + now rewrite (bind_Returns _ _ s (set_world w s) b)
        by (unfold invoke; now rewrite Hnew).
    + apply bind_Raises. unfold invoke. now rewrite Hnew.
  - rewrite (bind_Returns _ _ s s (time_localtime (world s))) by reflexivity.
    destruct r as [b|e].
    + now rewrite (bind_Returns _ _ s (set_world w s) b)
        by (unfold invoke; now rewrite Hnew).
    + apply bind_Raises. unfold invoke. now rewrite Hnew.
Qed.

(** The pre-flight check refuses an existing log folder before anything is
    handed to the executor. *)
Lemma execute_benchmark_refused (benchmark_file : string) (s : State) (cfg : Config)
    (w : World) (b : Benchmark) :
  config s = Some cfg ->
  Benchmark_new benchmark_file cfg (timestamp cfg (world s)) (world s) = (w, Returns b) ->
  os_path_exists (log_folder b) w = true ->
  BenchExec.execute_benchmark benchmark_file s
  = (set_world w s, Raises (SystemExit (ExitMessage (refusal b)))).
Proof.
  intros Hcfg Hnew Hfound.
  rewrite (execute_benchmark_constructs _ _ cfg w (Returns b)) by assumption.
  apply bind_Raises. unfold BenchExec.check_existing_results.
  rewrite (bind_Returns _ _ _ (set_world w s) true)
    by (unfold observe; cbn [world set_world]; now rewrite Hfound).
  reflexivity.
Qed.

(** The [try ... finally] block: whatever the executor and the removal of
    the log folder do, the removal is attempted and the block ends as the
    executor call ended. *)
Lemma run_and_clean_up_spec (b : Benchmark) (oh : OutputHandler) (s : State)
    (ex : Executor.t) (w1 w2 : World) (r : outcome Z) (d : outcome unit) :
  executor s = Some ex ->
  Executor.execute_benchmark ex b oh (world s) = (w1, r) ->
  os_rmdir (log_folder b) w1 = (w2, d) ->
  BenchExec.run_and_clean_up b oh s
  = ({| world := w2; executor := executor s; config := config s;
        trace := trace s ++ [ExecutorExecuteBenchmark b r; Rmdir (log_folder b) d] |}, r).
Proof.
  intros Hex Hrun Hrm. unfold BenchExec.run_and_clean_up, try_finally.
  rewrite (bind_Returns _ _ s s ex)
    by (unfold BenchExec.self_executor_method; now rewrite Hex).
  unfold invoke_noting at 1. rewrite Hrun.
  unfold try_except, invoke_noting. cbn [world set_world record].
  rewrite Hrm. unfold record, set_world, ret. cbn [world executor config trace].
  rewrite <- app_assoc. cbn [app].
  destruct d as [[]|e]; reflexivity.
Qed.

(** ** What the steps leave unchanged *)

Lemma preserves_self_config (I : State -> State -> Prop) :
  (forall s, I s s) -> preserves I BenchExec.self_config.
Proof.
  intros Hrefl s s' r. unfold BenchExec.self_config.
  destruct (config s); intros [= <- _]; apply Hrefl.
Qed.

Lemma preserves_self_executor_method (I : State -> State -> Prop) (method : string) :
  (forall s, I s s) -> preserves I (BenchExec.self_executor_method method).
Proof.
  intros Hrefl s s' r. unfold BenchExec.self_executor_method.
  destruct (executor s); intros [= <- _]; apply Hrefl.
Qed.

Ltac frame side :=
  lazymatch goal with
  | |- preserves _ (IO.bind _ _) =>
      apply preserves_bind; [side | frame side | intro; frame side]
  | |- preserves _ (try_finally _ _) =>
      apply preserves_try_finally; [side | frame side | frame side]
  | |- preserves _ (try_except _ _ _) =>
      apply preserves_try_except; [side | frame side | intro; frame side]
  | |- preserves _ (if _ then _ else _) => apply preserves_if; frame side
  | |- preserves _ (match ?x with _ => _ end) => destruct x; frame side
  | |- preserves _ (ret _) => apply preserves_ret; side
  | |- preserves _ (raise _) => apply preserves_raise; side
  | |- preserves _ (observe _) => apply preserves_observe; side
  | |- preserves _ (invoke _) => apply preserves_invoke; side
  | |- preserves _ (emit _) => apply preserves_emit; side
  | |- preserves _ (invoke_noting _ _) => apply preserves_invoke_noting; side
  | |- preserves _ BenchExec.self_config => apply preserves_self_config; side
  | |- preserves _ (BenchExec.self_executor_method _) =>
      apply preserves_self_executor_method; side
  | |- preserves _ (modify _) => apply preserves_modify; side
  | |- _ => idtac
  end.

Ltac unfold_steps :=
  unfold BenchExec.execute_benchmark, BenchExec.check_existing_results,
    BenchExec.run_and_clean_up, BenchExec.commit_results,
    BenchExec.self_stopped_by_interrupt, BenchExec.setup_logging,
    BenchExec.load_executor, logging_debug, logging_warning, parser_error, sys_exit.

Ltac instance_side :=
  solve [ intros; unfold same_instance in *;
          cbn [config executor set_world set_config set_executor record];
          intuition congruence ].

Lemma execute_benchmark_same_instance (benchmark_file : string) :
  preserves same_instance (BenchExec.execute_benchmark benchmark_file).
Proof. unfold_steps. frame instance_side. Qed.

Lemma run_files_same_instance (args : list string) (returnCode : Z) :
  preserves same_instance (BenchExec.run_files args returnCode).
Proof.
  revert returnCode. induction args as [|arg rest IH]; intros returnCode.
  - cbn [BenchExec.run_files]. frame instance_side.
  - cbn [BenchExec.run_files].
    unfold BenchExec.self_stopped_by_interrupt, logging_debug.
    frame instance_side.
    + apply execute_benchmark_same_instance.
    + apply IH.
Qed.

Lemma files_normalised (cfg : Config) (w : World) : files (normalised cfg w) = files cfg.
Proof. unfold normalised. now destruct (os_path_isdir (output_path cfg) w). Qed.

(** C5: when the log folder of a benchmark exists at the pre-flight check,
    the whole process is aborted at once: [main] ends with a [SystemExit]
    that carries a descriptive message (exit status 1), nothing is noted
    after the start of that benchmark, so the executor is not called for it,
    and the benchmark files after it are not run. *)
Theorem existing_log_folder_aborts (benchexec : bool) (argv : option (list string))
    (s : State) (w0 : World) (cfg : Config) (pre : list string) (arg : string)
    (post : list string) (s1 : State) (rc1 : Z) (w2 : World) (b : Benchmark) :
  parse_args (tl (effective_argv argv)) (world (entry benchexec s)) = (w0, Returns cfg) ->
  (forall f, In f (files cfg) -> missing f w0 = false) ->
  files cfg = (pre ++ arg :: post)%list ->
  BenchExec.run_files pre 0 (ready cfg w0 (entry benchexec s)) = (s1, Returns rc1) ->
  stopped_by_interrupt (world s1) = false ->
  Benchmark_new arg (normalised cfg w0) (timestamp (normalised cfg w0) (world s1)) (world s1)
  = (w2, Returns b) ->
  os_path_exists (log_folder b) w2 = true ->
  main benchexec argv s
  = (set_world w2
       (record (Logging DEBUG ("Benchmark " +:+ repr arg +:+ " is started.")) s1),
     Raises (SystemExit (ExitMessage (refusal b)))) /\
  exit_status (snd (main benchexec argv s)) = Some 1 /\
  trace (fst (main benchexec argv s))
  = (trace s1 ++ [Logging DEBUG ("Benchmark " +:+ repr arg +:+ " is started.")])%list.
Proof.
  intros Hparse Hpresent Hfiles Hpre Hstop Hnew Hfound.
  assert (Hcfg : config s1 = Some (normalised cfg w0))
    by (now destruct (run_files_same_instance _ _ _ _ _ Hpre) as [-> _]).
  assert (Hmain : main benchexec argv s
    = (set_world w2
         (record (Logging DEBUG ("Benchmark " +:+ repr arg +:+ " is started.")) s1),
       Raises (SystemExit (ExitMessage (refusal b))))).
  { rewrite main_unfold, (start_ready _ _ w0 cfg) by assumption.
    rewrite (bind_Raises _ _ _
               (set_world w2
                  (record (Logging DEBUG ("Benchmark " +:+ repr arg +:+ " is started.")) s1))
               (SystemExit (ExitMessage (refusal b)))); [reflexivity|].
    rewrite files_normalised, Hfiles, run_files_app, Hpre.
    rewrite run_files_step by assumption.
    now rewrite (execute_benchmark_refused arg _ (normalised cfg w0) w2 b). }
  rewrite Hmain. repeat split.
Qed.

(** C6: once [execute_benchmark] has reached the executor call, the removal
    of the log folder is attempted whether that call returns or raises;
    what the removal itself does, failure included, changes nothing in how
    [execute_benchmark] ends: an exception of the executor goes on to the
    caller, and a result is returned after the optional commit. *)
Theorem log_folder_removal_always_attempted (benchmark_file : string) (s : State)
    (cfg : Config) (ex : Executor.t) (b : Benchmark) (info : SystemInfo)
    (oh : OutputHandler) (w1 w2 w3 w4 w5 w6 : World) (r : outcome Z) (d : outcome unit) :
  config s = Some cfg ->
  executor s = Some ex ->
  Benchmark_new benchmark_file cfg (timestamp cfg (world s)) (world s) = (w1, Returns b) ->
  os_path_exists (log_folder b) w1 = false ->
  Executor.init ex cfg b w1 = (w2, Returns tt) ->
  Executor.get_system_info ex w2 = (w3, Returns info) ->
  OutputHandler_new b info w3 = (w4, Returns oh) ->
  Executor.execute_benchmark ex b oh w4 = (w5, r) ->
  os_rmdir (log_folder b) w5 = (w6, d) ->
  BenchExec.execute_benchmark benchmark_file s
  = match r with
    | Raises e => (cleaned_up s w6 benchmark_file b r d, Raises e)
    | Returns result =>
        IO.bind (BenchExec.commit_results cfg oh) (fun _ => ret result)
          (cleaned_up s w6 benchmark_file b r d)
    end /\
  (forall result,
     r = Returns result -> commit cfg = false ->
     BenchExec.execute_benchmark benchmark_file s
     = (cleaned_up s w6 benchmark_file b r d, Returns result)).
Proof.
  intros Hcfg Hex Hnew Hfree Hinit Hinfo Hhandler Hrun Hrm.
  assert (Hall : BenchExec.execute_benchmark benchmark_file s
    = match r with
      | Raises e => (cleaned_up s w6 benchmark_file b r d, Raises e)
      | Returns result =>
          IO.bind (BenchExec.commit_results cfg oh) (fun _ => ret result)
            (cleaned_up s w6 benchmark_file b r d)
      end).
  { rewrite (execute_benchmark_constructs _ _ cfg w1 (Returns b)) by assumption.
    rewrite (bind_Returns _ _ _ (set_world w1 s) tt)
      by (unfold BenchExec.check_existing_results, observe, IO.bind;
          cbn [world set_world]; now rewrite Hfree).
    rewrite (bind_Returns _ _ _ (set_world w1 s) ex)
      by (unfold BenchExec.self_executor_method; cbn [executor set_world];
          now rewrite Hex).
    rewrite (bind_Returns _ _ _ (record (ExecutorInit b) (set_world w1 s)) tt)
      by reflexivity.
    rewrite (bind_Returns _ _ _
               (set_world w2 (record (ExecutorInit b) (set_world w1 s))) tt)
      by (unfold invoke; cbn [world set_world record]; now rewrite Hinit).
    rewrite (bind_Returns _ _ _
               (record ExecutorGetSystemInfo
                  (set_world w2 (record (ExecutorInit b) (set_world w1 s)))) tt)
      by reflexivity.
    rewrite (bind_Returns _ _ _
               (set_world w3 (record ExecutorGetSystemInfo
                  (set_world w2 (record (ExecutorInit b) (set_world w1 s))))) info)
      by (unfold invoke; cbn [world set_world record]; now rewrite Hinfo).
    rewrite (bind_Returns _ _ _
               (set_world w4 (record ExecutorGetSystemInfo
                  (set_world w2 (record (ExecutorInit b) (set_world w1 s))))) oh)
      by (unfold invoke; cbn [world set_world record]; now rewrite Hhandler).
    match goal with
    | |- IO.bind (logging_debug ?msg) _ ?st = _ =>
        rewrite (bind_Returns _ _ st (record (Logging DEBUG msg) st) tt) by reflexivity
    end.
    match goal with
    | |- IO.bind (BenchExec.run_and_clean_up b oh) _ ?st = _ =>
        pose proof (run_and_clean_up_spec b oh st ex w5 w6 r d Hex Hrun Hrm) as Hblock
    end.
    cbn [world executor config trace set_world record] in Hblock.
    rewrite <- !app_assoc in Hblock. cbn [app] in Hblock.
    fold (cleaned_up s w6 benchmark_file b r d) in Hblock.
    destruct r as [result|e].
    - now rewrite (bind_Returns _ _ _ _ _ Hblock).
    - now rewrite (bind_Raises _ _ _ _ _ Hblock). }
  split; [exact Hall|].
  intros result -> Hcommit. rewrite Hall.
  unfold BenchExec.commit_results, BenchExec.self_stopped_by_interrupt, IO.bind, observe.
  now rewrite Hcommit.
Qed.

(** ** The return code of [start] *)

Lemma return_codes_app (evs1 evs2 : list event) :
  return_codes (evs1 ++ evs2) = (return_codes evs1 ++ return_codes evs2)%list.
Proof. apply flat_map_app. Qed.

Ltac codes_side :=
  solve [ intros; unfold same_codes in *;
          cbn [trace set_world set_config set_executor record];
          rewrite ?return_codes_app; cbn [return_codes flat_map app];
          rewrite ?app_nil_r; congruence ].

(** One more step of a run that returns; the step changes no return code. *)
Ltac quiet_step H :=
  let s1 := fresh "s" in
  let a := fresh "a" in
  let Hstep := fresh "Hstep" in
  let Hsame := fresh "Hsame" in
  apply bind_Returns_inv in H as (s1 & a & Hstep & H);
  lazymatch type of Hstep with
  | ?m _ = _ =>
      assert (Hsame : preserves same_codes m) by (unfold_steps; frame codes_side);
      apply Hsame in Hstep; clear Hsame
  end.

Lemma run_and_clean_up_codes (b : Benchmark) (oh : OutputHandler) (s s' : State)
    (result : Z) :
  BenchExec.run_and_clean_up b oh s = (s', Returns result) ->
  return_codes (trace s') = (return_codes (trace s) ++ [result])%list.
Proof.
  destruct (executor s) as [ex|] eqn:Hex.
  - destruct (Executor.execute_benchmark ex b oh (world s)) as [w1 r] eqn:Hrun.
    destruct (os_rmdir (log_folder b) w1) as [w2 d] eqn:Hrm.
    rewrite (run_and_clean_up_spec b oh s ex w1 w2 r d) by assumption.
    intros [= <- ->]. cbn [trace]. rewrite return_codes_app. reflexivity.
  - unfold BenchExec.run_and_clean_up, try_finally.
    rewrite (bind_Raises _ _ s s
               (AttributeError "'NoneType' object has no attribute 'execute_benchmark'"))
      by (unfold BenchExec.self_executor_method; now rewrite Hex).
    match goal with
    | |- context [try_except ?body ?c ?h s] => destruct (try_except body c h s) as [s2 [u|e]]
    end; discriminate.
Qed.

Lemma commit_results_same_codes (cfg : Config) (oh : OutputHandler) :
  preserves same_codes (BenchExec.commit_results cfg oh).
Proof. unfold_steps. frame codes_side. Qed.

(** A call of [execute_benchmark] that returns notes exactly one return code,
    the one it returns. *)
Lemma execute_benchmark_codes (benchmark_file : string) (s s' : State) (rc : Z) :
  BenchExec.execute_benchmark benchmark_file s = (s', Returns rc) ->
  return_codes (trace s') = (return_codes (trace s) ++ [rc])%list.
Proof.
  intros Hrun. unfold BenchExec.execute_benchmark in Hrun.
  do 11 quiet_step Hrun.
  apply bind_Returns_inv in Hrun as (s12 & result & Hblock & Hrun).
  apply run_and_clean_up_codes in Hblock.
  quiet_step Hrun. injection Hrun as <- <-.
  unfold same_codes in *. congruence.
Qed.

Lemma run_files_codes (args : list string) (returnCode : Z) (s s' : State) (v : Z) :
  BenchExec.run_files args returnCode s = (s', Returns v) ->
  exists codes,
    return_codes (trace s') = (return_codes (trace s) ++ codes)%list /\
    v = fold_left py_or codes returnCode.
Proof.
  revert returnCode s. induction args as [|arg rest IH]; intros returnCode s Hrun.
  - injection Hrun as <- <-. exists []. now rewrite app_nil_r.
  - destruct (stopped_by_interrupt (world s)) eqn:Hstop.
    + rewrite run_files_stopped in Hrun by assumption.
      injection Hrun as <- <-. exists []. now rewrite app_nil_r.
    + rewrite run_files_step in Hrun by assumption.
      match type of Hrun with
      | context [BenchExec.execute_benchmark ?a ?st] =>
          destruct (BenchExec.execute_benchmark a st) as [s1 [rc|e]] eqn:Hone
      end; [|discriminate].
      apply execute_benchmark_codes in Hone.
      apply IH in Hrun as (codes & Hcodes & ->).
      exists (rc :: codes). split; [|reflexivity].
      rewrite Hcodes. cbn [trace record]. rewrite return_codes_app, Hone.
      cbn [trace record]. rewrite return_codes_app. cbn [return_codes flat_map app].
      rewrite !app_nil_r, <- app_assoc. reflexivity.
Qed.

(** The logical OR of a list of return codes is zero exactly when all of
    them are. *)
Lemma fold_py_or_zero (codes : list Z) (returnCode : Z) :
  fold_left py_or codes returnCode = 0 <->
  returnCode = 0 /\ Forall (fun rc => rc = 0) codes.
Proof.
  revert returnCode. induction codes as [|rc codes IH]; intros returnCode; cbn [fold_left].
  - split; [intros ->; now split | now intros [-> _]].
  - rewrite IH. unfold py_or. destruct (Z.eqb_spec returnCode 0) as [->|Hne].
    + split.
      * intros [-> Hall]. split; [reflexivity | now constructor].
      * intros [_ Hall]. inversion Hall; subst. now split.
    + split; [intros [Hz _]; contradiction | intros [Hz _]; contradiction].
Qed.

Lemma check_files_same_codes (args : list string) :
  preserves same_codes (BenchExec.check_files args).
Proof.
  induction args as [|arg rest IH]; cbn [BenchExec.check_files]; unfold_steps;
    frame codes_side.
  exact IH.
Qed.

(** C8: the value [start] returns is the logical OR of the return codes of
    the benchmark files it executed, in order: it is 0 exactly when every one
    of them is 0, and not 0 exactly when one of them is not 0. *)
Theorem start_returns_logical_or (argv : list string) (s s' : State) (v : Z) :
  BenchExec.start argv s = (s', Returns v) ->
  exists codes,
    return_codes (trace s') = (return_codes (trace s) ++ codes)%list /\
    v = fold_left py_or codes 0 /\
    (v = 0 <-> Forall (fun rc => rc = 0) codes) /\
    (v <> 0 <-> Exists (fun rc => rc <> 0) codes).
Proof.
  intros Hrun. unfold BenchExec.start in Hrun.
  do 2 quiet_step Hrun.
  apply bind_Returns_inv in Hrun as (s2 & u & Hcheck & Hrun).
  apply check_files_same_codes in Hcheck.
  do 5 quiet_step Hrun.
  apply bind_Returns_inv in Hrun as (s8 & returnCode & Hloop & Hrun).
  apply run_files_codes in Hloop as (codes & Hcodes & ->).
  quiet_step Hrun. injection Hrun as <- <-.
  assert (Hzero : fold_left py_or codes 0 = 0 <-> Forall (fun rc => rc = 0) codes)
    by (rewrite fold_py_or_zero; intuition).
  exists codes. repeat split.
  - unfold same_codes in *. cbn [trace set_config set_executor] in *. congruence.
  - apply Hzero.
  - apply Hzero.
  - intros Hne. apply (Exists_Forall_neg (fun rc => rc = 0)).
    + intros rc. destruct (Z.eq_dec rc 0); [now left | now right].
    + intros Hall. apply Hne. now apply Hzero.
  - intros Hsome Hv. apply Hzero in Hv.
    apply (Exists_Forall_neg (fun rc => rc = 0)) in Hsome; [contradiction|].
    intros rc. destruct (Z.eq_dec rc 0); [now left | now right].
Qed.

(** When [start] is interrupted, [main] calls [stop], prints the message and
    then returns to its caller: no exit code is produced. *)
Lemma main_interrupted (benchexec : bool) (argv : option (list string)) (s s1 : State) :
  BenchExec.start (effective_argv argv) (entry benchexec s) = (s1, Raises KeyboardInterrupt) ->
  main benchexec argv s
  = IO.bind BenchExec.stop
      (fun _ => emit (PrintOut (NL +:+ NL
         +:+ "Script was interrupted by user, some runs may not be done."))) s1.
Proof. intros Hstart. now rewrite main_unfold, Hstart. Qed.

(** ** More on the orchestrator *)

(** X9: [main] adds nothing to a run of [start] that is not interrupted: a
    return code leaves [main] as the argument of [sys.exit], so that the
    exit status of the process is its low byte (256 gives 0), and an
    exception other than KeyboardInterrupt leaves [main] as it left
    [start]; [stop] is not called and nothing is printed. *)
Theorem main_ends_as_start (benchexec : bool) (argv : option (list string))
    (s s' : State) :
  (forall rc,
     BenchExec.start (effective_argv argv) (entry benchexec s) = (s', Returns rc) ->
     main benchexec argv s = (s', Raises (SystemExit (ExitCode rc))) /\
     (- 2 ^ 31 <= rc < 2 ^ 31 ->
      exit_status (snd (main benchexec argv s)) = Some (rc mod 256))) /\
  (forall e,
     BenchExec.start (effective_argv argv) (entry benchexec s) = (s', Raises e) ->
     e <> KeyboardInterrupt ->
     main benchexec argv s = (s', Raises e)).
Proof.
  split.
  - intros rc Hstart. rewrite main_unfold, Hstart. split; [reflexivity|].
    intros [Hlow Hhigh]. cbn [snd exit_status].
    apply Z.leb_le in Hlow. apply Z.ltb_lt in Hhigh. now rewrite Hlow, Hhigh.
  - intros e Hstart He. rewrite main_unfold, Hstart.
    destruct e; try reflexivity. congruence.
Qed.

(** X10: once the interrupted flag is set, [start] begins no further
    benchmark file: when the flag is up after the files run so far, the
    files after them are skipped and [start] returns the return code
    collected so far. *)
Theorem no_file_begins_after_interrupt (argv : list string) (s : State) (w : World)
    (cfg : Config) (pre post : list string) (s1 : State) (rc1 : Z) :
  parse_args (tl argv) (world s) = (w, Returns cfg) ->
  (forall f, In f (files cfg) -> missing f w = false) ->
  files cfg = (pre ++ post)%list ->
  BenchExec.run_files pre 0 (ready cfg w s) = (s1, Returns rc1) ->
  stopped_by_interrupt (world s1) = true ->
  BenchExec.start argv s
  = (record (Logging DEBUG "I think my job is done. Have a nice day!") s1, Returns rc1).
Proof.
  intros Hparse Hpresent Hfiles Hpre Hstop.
  rewrite (start_ready _ _ w cfg) by assumption.
  rewrite (bind_Returns _ _ _ s1 rc1); [reflexivity|].
  rewrite files_normalised, Hfiles, run_files_app, Hpre.
  now apply run_files_stopped.
Qed.

(** X11: an exception of one benchmark file ends [start] on the spot: no
    later file is started and the return codes collected before are not
    returned, the exception is. *)
Theorem failing_benchmark_ends_start (argv : list string) (s : State) (w : World)
    (cfg : Config) (pre : list string) (arg : string) (post : list string)
    (s1 s2 : State) (rc1 : Z) (e : exn) :
  parse_args (tl argv) (world s) = (w, Returns cfg) ->
  (forall f, In f (files cfg) -> missing f w = false) ->
  files cfg = (pre ++ arg :: post)%list ->
  BenchExec.run_files pre 0 (ready cfg w s) = (s1, Returns rc1) ->
  stopped_by_interrupt (world s1) = false ->
  BenchExec.execute_benchmark arg
    (record (Logging DEBUG ("Benchmark " +:+ repr arg +:+ " is started.")) s1)
  = (s2, Raises e) ->
  BenchExec.start argv s = (s2, Raises e).
Proof.
  intros Hparse Hpresent Hfiles Hpre Hstop Hone.
  rewrite (start_ready _ _ w cfg) by assumption.
  apply bind_Raises.
  rewrite files_normalised, Hfiles, run_files_app, Hpre.
  rewrite run_files_step by assumption. now rewrite Hone.
Qed.

(** X12: a commit that fails with an OSError is only logged: the attempt is
    noted, a warning with the error's text is logged, and the result of the
    benchmark is returned as if nothing had happened; any other exception of
    the commit is raised. *)
Theorem failed_commit_is_only_logged (cfg : Config) (oh : OutputHandler) (s : State)
    (w : World) (e : exn) (result : Z) :
  commit cfg = true ->
  stopped_by_interrupt (world s) = false ->
  add_files_to_git_repository (output_path cfg) (all_created_files oh (world s))
    (commit_message cfg +:+ NL +:+ NL +:+ description oh (world s)) (world s)
  = (w, Raises e) ->
  IO.bind (BenchExec.commit_results cfg oh) (fun _ => ret result) s
  = let attempted :=
      set_world w
        (record (AddFilesToGit (output_path cfg) (all_created_files oh (world s))
                   (commit_message cfg +:+ NL +:+ NL +:+ description oh (world s))) s) in
    match e with
    | OSError m =>
        (record (Logging WARNING ("Could not add files to git repository: " +:+ m))
           attempted, Returns result)
    | _ => (attempted, Raises e)
    end.
Proof.
  intros Hcommit Hstop Hadd.
  unfold BenchExec.commit_results, BenchExec.self_stopped_by_interrupt,
    logging_warning.
  cbv [IO.bind observe try_except emit invoke ret].
  rewrite Hstop, Hcommit. cbn [andb negb world record set_world].
  rewrite Hadd. destruct e; reflexivity.
Qed.

(** The commit is left out when it was not asked for or the flag is up. *)
Lemma commit_results_skipped (cfg : Config) (oh : OutputHandler) (s : State) :
  commit cfg = false \/ stopped_by_interrupt (world s) = true ->
  BenchExec.commit_results cfg oh s = (s, Returns tt).
Proof.
  intros Hskip.
  unfold BenchExec.commit_results, BenchExec.self_stopped_by_interrupt.
  cbv [IO.bind observe ret].
  destruct Hskip as [-> | ->]; [reflexivity|].
  now rewrite andb_false_r.
Qed.

(** [execute_benchmark] from the construction of the benchmark to the end of
    the [try ... finally] block, when every step before the executor call
    returns. *)
Lemma execute_benchmark_runs (benchmark_file : string) (s : State)
    (cfg : Config) (ex : Executor.t) (b : Benchmark) (info : SystemInfo)
    (oh : OutputHandler) (w1 w2 w3 w4 w5 w6 : World) (r : outcome Z) (d : outcome unit) :
  config s = Some cfg ->
  executor s = Some ex ->
  Benchmark_new benchmark_file cfg (timestamp cfg (world s)) (world s) = (w1, Returns b) ->
  os_path_exists (log_folder b) w1 = false ->
  Executor.init ex cfg b w1 = (w2, Returns tt) ->
  Executor.get_system_info ex w2 = (w3, Returns info) ->
  OutputHandler_new b info w3 = (w4, Returns oh) ->
  Executor.execute_benchmark ex b oh w4 = (w5, r) ->
  os_rmdir (log_folder b) w5 = (w6, d) ->
  BenchExec.execute_benchmark benchmark_file s
  = IO.bind (fun st => (st, r))
      (fun result => IO.bind (BenchExec.commit_results cfg oh) (fun _ => ret result))
      (cleaned_up s w6 benchmark_file b r d).
Proof.
  intros Hcfg Hex Hnew Hfree Hinit Hinfo Hhandler Hrun Hrm.
  rewrite (execute_benchmark_constructs _ _ cfg w1 (Returns b)) by assumption.
  rewrite (bind_Returns _ _ _ (set_world w1 s) tt)
    by (unfold BenchExec.check_existing_results, observe, IO.bind;
        cbn [world set_world]; now rewrite Hfree).
  rewrite (bind_Returns _ _ _ (set_world w1 s) ex)
    by (unfold BenchExec.self_executor_method; cbn [executor set_world];
        now rewrite Hex).
  rewrite (bind_Returns _ _ _ (record (ExecutorInit b) (set_world w1 s)) tt)
    by reflexivity.
  rewrite (bind_Returns _ _ _
             (set_world w2 (record (ExecutorInit b) (set_world w1 s))) tt)
    by (unfold invoke; cbn [world set_world record]; now rewrite Hinit).
  rewrite (bind_Returns _ _ _
             (record ExecutorGetSystemInfo
                (set_world w2 (record (ExecutorInit b) (set_world w1 s)))) tt)
    by reflexivity.
  rewrite (bind_Returns _ _ _
             (set_world w3 (record ExecutorGetSystemInfo
                (set_world w2 (record (ExecutorInit b) (set_world w1 s))))) info)
    by (unfold invoke; cbn [world set_world record]; now rewrite Hinfo).
  rewrite (bind_Returns _ _ _
             (set_world w4 (record ExecutorGetSystemInfo
                (set_world w2 (record (ExecutorInit b) (set_world w1 s))))) oh)
    by (unfold invoke; cbn [world set_world record]; now rewrite Hhandler).
  match goal with
  | |- IO.bind (logging_debug ?msg) _ ?st = _ =>
      rewrite (bind_Returns _ _ st (record (Logging DEBUG msg) st) tt) by reflexivity
  end.
  match goal with
  | |- IO.bind (BenchExec.run_and_clean_up b oh) _ ?st = _ =>
      pose proof (run_and_clean_up_spec b oh st ex w5 w6 r d Hex Hrun Hrm) as Hblock
  end.
  cbn [world executor config trace set_world record] in Hblock.
  rewrite <- !app_assoc in Hblock. cbn [app] in Hblock.
  fold (cleaned_up s w6 benchmark_file b r d) in Hblock.
  destruct r as [result|e].
  - now rewrite (bind_Returns _ _ _ _ _ Hblock).
  - now rewrite (bind_Raises _ _ _ _ _ Hblock).
Qed.

(** X13: an interrupt that arrives while a benchmark runs suppresses its
    commit: when the flag is up after the executor call and the removal
    attempt, [execute_benchmark] returns the executor's result without
    calling the persistence collaborator, even when the commit was asked
    for. *)
Theorem interrupt_suppresses_commit (benchmark_file : string) (s : State)
    (cfg : Config) (ex : Executor.t) (b : Benchmark) (info : SystemInfo)
    (oh : OutputHandler) (w1 w2 w3 w4 w5 w6 : World) (result : Z) (d : outcome unit) :
  config s = Some cfg ->
  executor s = Some ex ->
  Benchmark_new benchmark_file cfg (timestamp cfg (world s)) (world s) = (w1, Returns b) ->
  os_path_exists (log_folder b) w1 = false ->
  Executor.init ex cfg b w1 = (w2, Returns tt) ->
  Executor.get_system_info ex w2 = (w3, Returns info) ->
  OutputHandler_new b info w3 = (w4, Returns oh) ->
  Executor.execute_benchmark ex b oh w4 = (w5, Returns result) ->
  os_rmdir (log_folder b) w5 = (w6, d) ->
  stopped_by_interrupt w6 = true ->
  BenchExec.execute_benchmark benchmark_file s
  = (cleaned_up s w6 benchmark_file b (Returns result) d, Returns result).
Proof.
  intros Hcfg Hex Hnew Hfree Hinit Hinfo Hhandler Hrun Hrm Hstop.
  rewrite (execute_benchmark_runs benchmark_file s cfg ex b info oh
             w1 w2 w3 w4 w5 w6 (Returns result) d) by assumption.
  cbv [IO.bind]. rewrite commit_results_skipped; [reflexivity|].
  right. exact Hstop.
Qed.

Lemma preserves_self_executor (I : State -> State -> Prop) :
  (forall s, I s s) -> preserves I BenchExec.self_executor.
Proof. intros Hrefl s s' r [= <- _]. apply Hrefl. Qed.

Ltac silent_side :=
  solve [ intros; unfold silent in *;
          cbn [trace config executor set_world set_config set_executor record];
          intuition congruence ].

(** [execute_benchmark] up to the first use of the executor. *)
Lemma execute_benchmark_without_executor (benchmark_file : string) (s s' : State)
    (r : outcome Z) :
  executor s = None ->
  BenchExec.execute_benchmark benchmark_file s = (s', r) ->
  silent s s' /\ exists e, r = Raises e.
Proof.
  intros Hnone Hrun. unfold BenchExec.execute_benchmark in Hrun.
  assert (Hstart : silent s s) by (repeat split).
  revert Hstart. generalize s at 1 3 as s0. intros s0 Hs0.
  repeat
    match type of Hrun with
    | IO.bind (BenchExec.self_executor_method _) _ ?st = _ =>
        fail 1
    | IO.bind ?m _ ?st = _ =>
        let Hstep := fresh "Hstep" in
        let Hsame := fresh "Hsame" in
        assert (Hsame : preserves silent m) by (unfold_steps; frame silent_side);
        apply bind_inv in Hrun as [(? & ? & Hstep & Hrun) | (? & Hstep & ->)];
        apply Hsame in Hstep; clear Hsame;
        [ | split; [unfold silent in *; intuition congruence | eexists; reflexivity] ]
    end.
  match type of Hrun with
  | IO.bind _ _ ?st = _ =>
      assert (Hex : executor st = None)
        by (unfold silent in *; intuition congruence)
  end.
  rewrite (bind_Raises _ _ _ _
             (AttributeError "'NoneType' object has no attribute 'init'")) in Hrun
    by (unfold BenchExec.self_executor_method; now rewrite Hex).
  injection Hrun as <- <-.
  split; [unfold silent in *; intuition congruence | eexists; reflexivity].
Qed.

(** X14: [execute_benchmark] called on an instance that was not set up fails
    with an AttributeError before any work is handed out: without [config]
    at once, with the state untouched; without an executor after the
    benchmark was constructed and the log folder checked, and nothing is
    noted in either case. *)
Theorem execute_benchmark_needs_setup (benchmark_file : string) (s : State) :
  (config s = None ->
   BenchExec.execute_benchmark benchmark_file s
   = (s, Raises (AttributeError "'BenchExec' object has no attribute 'config'"))) /\
  (forall cfg w b,
     config s = Some cfg -> executor s = None ->
     Benchmark_new benchmark_file cfg (timestamp cfg (world s)) (world s)
     = (w, Returns b) ->
     os_path_exists (log_folder b) w = false ->
     BenchExec.execute_benchmark benchmark_file s
     = (set_world w s,
        Raises (AttributeError "'NoneType' object has no attribute 'init'"))) /\
  (forall s' r,
     executor s = None ->
     BenchExec.execute_benchmark benchmark_file s = (s', r) ->
     trace s' = trace s /\ exists e, r = Raises e).
Proof.
  split; [|split].
  - intros Hnone. unfold BenchExec.execute_benchmark.
    apply bind_Raises. unfold BenchExec.self_config. now rewrite Hnone.
  - intros cfg w b Hcfg Hex Hnew Hfree.
    rewrite (execute_benchmark_constructs _ _ cfg w (Returns b)) by assumption.
    rewrite (bind_Returns _ _ _ (set_world w s) tt)
      by (unfold BenchExec.check_existing_results, observe, IO.bind;
          cbn [world set_world]; now rewrite Hfree).
    apply bind_Raises. unfold BenchExec.self_executor_method.
    cbn [executor set_world]. now rewrite Hex.
  - intros s' r Hex Hrun.
    destruct (execute_benchmark_without_executor _ _ _ _ Hex Hrun) as [[Htrace _] He].
    now split.
Qed.

(** X15: [stop] raises the interrupted flag first and then tells the
    executor, if one is loaded: without an executor it only sets the flag,
    never raises, and a second call changes nothing more; with an executor,
    the executor's [stop] sees the flag already set, and [stop] ends as that
    call ends. *)
Theorem stop_sets_flag_then_forwards (s : State) :
  (executor s = None ->
   BenchExec.stop s = (set_world (set_stopped_by_interrupt true (world s)) s, Returns tt) /\
   stopped_by_interrupt (world (fst (BenchExec.stop s))) = true /\
   BenchExec.stop (fst (BenchExec.stop s)) = BenchExec.stop s) /\
  (forall ex w r,
     executor s = Some ex ->
     Executor.stop ex (set_stopped_by_interrupt true (world s)) = (w, r) ->
     BenchExec.stop s
     = (set_world w
          (record ExecutorStop (set_world (set_stopped_by_interrupt true (world s)) s)),
        r)).
Proof.
  split.
  - intros Hnone.
    assert (Hstop : BenchExec.stop s
      = (set_world (set_stopped_by_interrupt true (world s)) s, Returns tt)).
    { unfold BenchExec.stop, BenchExec.self_executor.
      cbv [IO.bind modify ret]. cbn [executor set_world]. now rewrite Hnone. }
    rewrite Hstop. cbn [fst]. repeat split.
    unfold BenchExec.stop, BenchExec.self_executor.
    cbv [IO.bind modify ret]. cbn [executor set_world world]. now rewrite Hnone.
  - intros ex w r Hex Hcall.
    unfold BenchExec.stop, BenchExec.self_executor.
    cbv [IO.bind modify ret emit invoke]. cbn [executor set_world world record].
    rewrite Hex. cbn [world record set_world]. rewrite Hcall. now destruct r.
Qed.

(** X16: when the command line parses and every file is there, [start]
    leaves the instance set up however its runs end: the executor of the
    local machine is loaded, the configuration is the parsed one with the
    same files, and its output path is normalised and ends with the
    separator exactly when it named a directory. *)
Theorem start_sets_up_instance (argv : list string) (s s' : State) (w : World)
    (cfg : Config) (r : outcome Z) :
  parse_args (tl argv) (world s) = (w, Returns cfg) ->
  (forall f, In f (files cfg) -> missing f w = false) ->
  BenchExec.start argv s = (s', r) ->
  executor s' = Some localexecution /\
  config s' = Some (normalised cfg w) /\
  files (normalised cfg w) = files cfg /\
  output_path (normalised cfg w)
  = (if os_path_isdir (output_path cfg) w
     then os_path_normpath (output_path cfg) +:+ os_sep
     else output_path cfg).
Proof.
  intros Hparse Hpresent Hrun.
  rewrite (start_ready _ _ w cfg) in Hrun by assumption.
  assert (Hsame : same_instance (ready cfg w s) s').
  { revert Hrun. generalize (ready cfg w s). intros st Hrun.
    assert (Hp : preserves same_instance
              (IO.bind (BenchExec.run_files (files (normalised cfg w)) 0)
                 (fun returnCode =>
                    IO.bind (logging_debug "I think my job is done. Have a nice day!")
                      (fun _ => ret returnCode)))).
    { unfold logging_debug. frame instance_side. apply run_files_same_instance. }
    exact (Hp _ _ _ Hrun). }
  destruct Hsame as [Hconfig Hexecutor]. repeat split.
  - now rewrite Hexecutor.
  - now rewrite Hconfig.
  - apply files_normalised.
  - unfold normalised. now destruct (os_path_isdir (output_path cfg) w).
Qed.

(** ** Every executor call has its removal attempt *)

Lemma executor_calls_app (evs1 evs2 : list event) :
  executor_calls (evs1 ++ evs2) = (executor_calls evs1 + executor_calls evs2)%nat.
Proof. unfold executor_calls. now rewrite filter_app, length_app. Qed.

Lemma removal_attempts_app (evs1 evs2 : list event) :
  removal_attempts (evs1 ++ evs2) = (removal_attempts evs1 + removal_attempts evs2)%nat.
Proof. unfold removal_attempts. now rewrite filter_app, length_app. Qed.

Ltac balance_side :=
  solve [ intros; unfold balanced in *;
          cbn [trace set_world set_config set_executor record];
          rewrite ?executor_calls_app, ?removal_attempts_app;
          cbn [executor_calls removal_attempts filter List.length]; lia ].

Ltac guarded_side :=
  solve [ intros; unfold balanced_with_executor, balanced in *;
          cbn [trace executor set_world set_config set_executor record] in *;
          rewrite ?executor_calls_app, ?removal_attempts_app;
          cbn [executor_calls removal_attempts filter List.length];
          repeat match goal with
                 | H : _ /\ _ |- _ => destruct H
                 end;
          split; [congruence | intros];
          repeat match goal with
                 | H : ?x <> None -> _, E : executor _ = ?x |- _ =>
                     let H' := fresh in
                     assert (H' : x <> None) by congruence; specialize (H H')
                 | H : ?x <> None -> _, N : ?x <> None |- _ => specialize (H N)
                 end;
          try lia ].

Lemma run_and_clean_up_balanced (b : Benchmark) (oh : OutputHandler) :
  preserves balanced_with_executor (BenchExec.run_and_clean_up b oh).
Proof.
  intros s s' r Hrun. destruct (executor s) as [ex|] eqn:Hex.
  - destruct (Executor.execute_benchmark ex b oh (world s)) as [w1 r1] eqn:Hcall.
    destruct (os_rmdir (log_folder b) w1) as [w2 d] eqn:Hrm.
    rewrite (run_and_clean_up_spec b oh s ex w1 w2 r1 d) in Hrun by assumption.
    injection Hrun as <- _. split; [reflexivity|]. intros _.
    unfold balanced. cbn [trace]. rewrite executor_calls_app, removal_attempts_app.
    cbn. lia.
  - assert (Hp : preserves (fun s s' : State => executor s' = executor s)
              (BenchExec.run_and_clean_up b oh)).
    { unfold BenchExec.run_and_clean_up.
      frame ltac:(solve [intros; cbn [executor set_world record]; congruence]). }
    split; [exact (Hp _ _ _ Hrun) | congruence].
Qed.

Lemma execute_benchmark_balanced (benchmark_file : string) :
  preserves balanced (BenchExec.execute_benchmark benchmark_file).
Proof.
  intros s s' r Hrun. destruct (executor s) as [ex|] eqn:Hex.
  - assert (Hp : preserves balanced_with_executor
              (BenchExec.execute_benchmark benchmark_file)).
    { unfold BenchExec.execute_benchmark, BenchExec.check_existing_results,
        BenchExec.commit_results, BenchExec.self_stopped_by_interrupt,
        logging_debug, logging_warning, sys_exit.
      frame guarded_side. apply run_and_clean_up_balanced. }
    destruct (Hp _ _ _ Hrun) as [_ Hbalanced]. apply Hbalanced. congruence.
  - destruct (execute_benchmark_without_executor _ _ _ _ Hex Hrun) as [[Htrace _] _].
    unfold balanced. rewrite Htrace. lia.
Qed.

Lemma run_files_balanced (args : list string) (returnCode : Z) :
  preserves balanced (BenchExec.run_files args returnCode).
Proof.
  revert returnCode. induction args as [|arg rest IH]; intros returnCode;
    cbn [BenchExec.run_files];
    unfold BenchExec.self_stopped_by_interrupt, logging_debug;
    frame balance_side.
  - apply execute_benchmark_balanced.
  - apply IH.
Qed.

Lemma check_files_balanced (args : list string) :
  preserves balanced (BenchExec.check_files args).
Proof.
  induction args as [|arg rest IH]; cbn [BenchExec.check_files];
    unfold parser_error, sys_exit; frame balance_side.
  exact IH.
Qed.

(** X17: in every run of [main], however it ends, each executor call that
    was made has its attempt to remove the log folder: the trace gains as
    many removal attempts as executor calls. *)
Theorem every_executor_call_is_cleaned_up (benchexec : bool)
    (argv : option (list string)) (s s' : State) (r : outcome unit) :
  main benchexec argv s = (s', r) ->
  (executor_calls (trace s') + removal_attempts (trace s)
   = executor_calls (trace s) + removal_attempts (trace s'))%nat.
Proof.
  intros Hrun.
  assert (Hp : preserves balanced (main benchexec argv)).
  { unfold main, BenchExec.new, BenchExec.__init__, BenchExec.stop,
      BenchExec.start, BenchExec.setup_logging, BenchExec.load_executor,
      logging_debug, sys_exit.
    frame balance_side;
      first [ apply check_files_balanced
            | apply run_files_balanced
            | apply preserves_self_executor; balance_side ]. }
  exact (Hp _ _ _ Hrun).
Qed.

Lemma fold_py_or_first (codes : list Z) (returnCode : Z) :
  fold_left py_or codes returnCode
  = if (returnCode =? 0)%Z then first_failure codes else returnCode.
Proof.
  revert returnCode. induction codes as [|rc codes IH]; intros returnCode.
  - cbn. now destruct (Z.eqb_spec returnCode 0).
  - cbn [fold_left]. rewrite IH. unfold py_or, first_failure. cbn [filter].
    destruct (Z.eqb_spec returnCode 0) as [->|Hne].
    + destruct (Z.eqb_spec rc 0) as [->|Hrc]; reflexivity.
    + destruct (Z.eqb_spec returnCode 0); [contradiction | reflexivity].
Qed.

(** The return codes noted during a run of [start] that returns. *)
Lemma start_noted_codes (argv : list string) (s s' : State) (v : Z) :
  BenchExec.start argv s = (s', Returns v) ->
  exists codes,
    return_codes (trace s') = (return_codes (trace s) ++ codes)%list /\
    v = fold_left py_or codes 0.
Proof.
  intros Hrun. unfold BenchExec.start in Hrun.
  do 2 quiet_step Hrun.
  apply bind_Returns_inv in Hrun as (s2 & u & Hcheck & Hrun).
  apply check_files_same_codes in Hcheck.
  do 5 quiet_step Hrun.
  apply bind_Returns_inv in Hrun as (s8 & returnCode & Hloop & Hrun).
  apply run_files_codes in Hloop as (codes & Hcodes & ->).
  quiet_step Hrun. injection Hrun as <- <-.
  exists codes. split; [|reflexivity].
  unfold same_codes in *. cbn [trace set_config set_executor] in *. congruence.
Qed.

(** X18: the value [start] returns is the first return code, in the order
    of the benchmark files it executed, that is not zero, and zero when
    there is none: later codes do not change it, and codes are not combined
    bit by bit. *)
Theorem start_returns_first_failure (argv : list string) (s s' : State) (v : Z) :
  BenchExec.start argv s = (s', Returns v) ->
  exists codes,
    return_codes (trace s') = (return_codes (trace s) ++ codes)%list /\
    v = first_failure codes /\
    (forall before rc after,
       codes = (before ++ rc :: after)%list ->
       Forall (fun c => c = 0) before -> rc <> 0 -> v = rc).
Proof.
  intros Hrun. apply start_noted_codes in Hrun as (codes & Hcodes & ->).
  exists codes. split; [exact Hcodes|]. rewrite fold_py_or_first. cbn.
  split; [reflexivity|].
  intros before rc after -> Hbefore Hrc. clear Hcodes. unfold first_failure.
  rewrite filter_app. cbn [filter].
  apply Z.eqb_neq in Hrc. rewrite Hrc. cbn [negb].
  replace (filter (fun c => negb (c =? 0)%Z) before) with (@nil Z); [reflexivity|].
  symmetry. induction Hbefore as [|c before Hc _ IH]; [reflexivity|].
  cbn [filter]. subst c. cbn. exact IH.
Qed.

End Orchestrator.

(** * Runs on the machine in memory *)

Import InMemory.

Lemma start_reports_first_missing_file_witness :
  observed (BenchExec.start ["benchexec"; "a.xml"; "b.xml"; "c.xml"]
              (boot (disk [("a.xml", RegularFile "ok")])))
  = ([ParserError "File 'b.xml' does not exist."], false, Raises (SystemExit (ExitCode 2))).
Proof.
  rewrite (start_reports_first_missing_file
             ["benchexec"; "a.xml"; "b.xml"; "c.xml"]
             (boot (disk [("a.xml", RegularFile "ok")]))
             (disk [("a.xml", RegularFile "ok")])
             (parsed ["a.xml"; "b.xml"; "c.xml"] ["a.xml"; "b.xml"; "c.xml"])
             ["a.xml"] "b.xml" ["c.xml"]).
  - reflexivity.
  - reflexivity.
  - reflexivity.
  - intros f [<-|[]]. reflexivity.
  - reflexivity.
Defined.

(** C1, as stated, fails: with two missing files only the first is reported
    before start() exits. *)
Lemma start_reports_only_first_missing_file :
  let run := BenchExec.start ["benchexec"; "a.xml"; "b.xml"] (boot (disk [])) in
  missing "a.xml" (disk []) = true /\
  missing "b.xml" (disk []) = true /\
  snd run = Raises (SystemExit (ExitCode 2)) /\
  trace (fst run) = [missing_file_report "a.xml"] /\
  ~ In (missing_file_report "b.xml") (trace (fst run)).
Proof.
  repeat split; try reflexivity.
  intros [Hfirst | []]. discriminate Hfirst.
Qed.

Lemma existing_log_folder_aborts_witness :
  let w := disk [("a.xml", RegularFile "ok"); ("b.xml", RegularFile "fail");
                 ("c.xml", RegularFile "ok"); ("results/b.xml.logfiles", Directory [])] in
  let run := main false (Some ["benchexec"; "a.xml"; "b.xml"; "c.xml"]) (boot w) in
  snd run = Raises (SystemExit (ExitMessage
    "Output directory results/b.xml.logfiles already exists, will not overwrite existing results.")) /\
  exit_status (snd run) = Some 1 /\
  return_codes (trace (fst run)) = [0].
Proof.
  intros w run.
  pose (cfg := parsed ["a.xml"; "b.xml"; "c.xml"] ["a.xml"; "b.xml"; "c.xml"]).
  pose (s1 := fst (BenchExec.run_files ["a.xml"] 0 (ready cfg w (entry false (boot w))))).
  destruct (existing_log_folder_aborts false
              (Some ["benchexec"; "a.xml"; "b.xml"; "c.xml"]) (boot w) w cfg
              ["a.xml"] "b.xml" ["c.xml"] s1 0 (world s1)
              {| log_folder := "results/b.xml.logfiles"; run_sets := ["fail"] |})
    as (Hmain & Hstatus & _).
  - vm_compute; reflexivity.
  - intros f [<-|[<-|[<-|[]]]]; vm_compute; reflexivity.
  - vm_compute; reflexivity.
  - vm_compute; reflexivity.
  - vm_compute; reflexivity.
  - vm_compute; reflexivity.
  - vm_compute; reflexivity.
  - subst run. rewrite Hmain. vm_compute. repeat split.
Defined.

Lemma log_folder_removal_always_attempted_witness :
  let cfg := parsed ["b.xml"] ["b.xml"] in
  let on (w : World) : State :=
    {| world := w; executor := Some scripted; config := Some cfg; trace := [] |} in
  let failing := disk [("b.xml", RegularFile "fail")] in
  let crashing := disk [("b.xml", RegularFile "crash")] in
  (snd (BenchExec.execute_benchmark "b.xml" (on failing)) = Returns 1 /\
   In (Rmdir "results/b.xml.logfiles" (Raises (OSError "Directory not empty")))
      (trace (fst (BenchExec.execute_benchmark "b.xml" (on failing))))) /\
  (snd (BenchExec.execute_benchmark "b.xml" (on crashing))
   = Raises (OtherError "tool not found") /\
   In (Rmdir "results/b.xml.logfiles" (Returns tt))
      (trace (fst (BenchExec.execute_benchmark "b.xml" (on crashing))))).
Proof.
  intros cfg on failing crashing.
  pose (made := fun w : World =>
          with_sys (write "results/b.xml.logfiles" (Directory []) (sys w)) w).
  split.
  - pose (b := {| log_folder := "results/b.xml.logfiles"; run_sets := ["fail"] |}).
    pose (w5 := with_sys (write "results/b.xml.logfiles" (Directory ["run.log"])
                            (sys (made failing))) (made failing)).
    destruct (log_folder_removal_always_attempted "b.xml" (on failing) cfg scripted b
                "in memory" b failing failing failing (made failing) w5 w5
                (Returns 1) (Raises (OSError "Directory not empty")))
      as (_ & Hreturns); try (vm_compute; reflexivity).
    rewrite (Hreturns 1) by (vm_compute; reflexivity).
    vm_compute. split; [reflexivity|].
    right. right. right. right. left. reflexivity.
  - pose (b := {| log_folder := "results/b.xml.logfiles"; run_sets := ["crash"] |}).
    destruct (log_folder_removal_always_attempted "b.xml" (on crashing) cfg scripted b
                "in memory" b crashing crashing crashing (made crashing) (made crashing)
                crashing (Raises (OtherError "tool not found")) (Returns tt))
      as (Hraises & _); try (vm_compute; reflexivity).
    rewrite Hraises. vm_compute. split; [reflexivity|].
    right. right. right. right. left. reflexivity.
Defined.

Lemma start_returns_logical_or_witness :
  let w := disk [("a.xml", RegularFile "ok"); ("b.xml", RegularFile "fail");
                 ("c.xml", RegularFile "ok")] in
  let run := BenchExec.start ["benchexec"; "a.xml"; "b.xml"; "c.xml"] (boot w) in
  snd run = Returns 1 /\
  exists codes,
    return_codes (trace (fst run)) = codes /\
    1 = fold_left py_or codes 0 /\
    (1 = 0 <-> Forall (fun rc => rc = 0) codes) /\
    (1 <> 0 <-> Exists (fun rc => rc <> 0) codes).
Proof.
  intros w run. split; [vm_compute; reflexivity|].
  apply (start_returns_logical_or ["benchexec"; "a.xml"; "b.xml"; "c.xml"]
           (boot w) (fst run) 1).
  vm_compute; reflexivity.
Defined.

(** C7: at an interactive cancel [main] calls [stop] and prints the message,
    but then it returns to its caller instead of leaving through [sys.exit]:
    the process ends with status 0, not with a non-zero one. *)
Theorem main_returns_after_interrupt :
  let w := disk [("a.xml", RegularFile "interrupt")] in
  let run := main false (Some ["benchexec"; "a.xml"]) (boot w) in
  snd (BenchExec.start ["benchexec"; "a.xml"] (entry false (boot w)))
  = Raises KeyboardInterrupt /\
  stopped_by_interrupt (world (fst run)) = true /\
  In ExecutorStop (trace (fst run)) /\
  In (PrintOut (NL +:+ NL
        +:+ "Script was interrupted by user, some runs may not be done."))
     (trace (fst run)) /\
  snd run = Returns tt /\
  exit_status (snd run) = Some 0.
Proof.
  intros w run. subst run w.
  rewrite (main_interrupted false (Some ["benchexec"; "a.xml"])
             (boot (disk [("a.xml", RegularFile "interrupt")]))
             (fst (BenchExec.start ["benchexec"; "a.xml"]
                     (entry false (boot (disk [("a.xml", RegularFile "interrupt")]))))))
    by (vm_compute; reflexivity).
  vm_compute. intuition.
Qed.

Lemma main_ends_as_start_witness :
  let failing := boot (disk [("a.xml", RegularFile "fail")]) in
  let crashing := boot (disk [("a.xml", RegularFile "crash")]) in
  let wrapping := boot (disk [("a.xml", RegularFile "256")]) in
  exit_status (snd (main false (Some ["benchexec"; "a.xml"]) failing)) = Some 1 /\
  snd (main false (Some ["benchexec"; "a.xml"]) crashing)
  = Raises (OtherError "tool not found") /\
  snd (@main _ Numbered.collaborators false (Some ["benchexec"; "a.xml"]) wrapping)
  = Raises (SystemExit (ExitCode 256)) /\
  exit_status
    (snd (@main _ Numbered.collaborators false (Some ["benchexec"; "a.xml"]) wrapping))
  = Some 0.
Proof.
  intros failing crashing wrapping. split; [|split].
  - destruct (proj1 (main_ends_as_start false (Some ["benchexec"; "a.xml"]) failing
                       (fst (BenchExec.start ["benchexec"; "a.xml"]
                               (entry false failing))))
                1) as [_ Hstatus].
    + vm_compute; reflexivity.
    + apply Hstatus; lia.
  - rewrite (proj2 (main_ends_as_start false (Some ["benchexec"; "a.xml"]) crashing
                      (fst (BenchExec.start ["benchexec"; "a.xml"] (entry false crashing))))
               (OtherError "tool not found")).
    + reflexivity.
    + vm_compute; reflexivity.
    + discriminate.
  - destruct (proj1 (@main_ends_as_start _ Numbered.collaborators false
                       (Some ["benchexec"; "a.xml"]) wrapping
                       (fst (@BenchExec.start _ Numbered.collaborators
                               ["benchexec"; "a.xml"]
                               (@entry _ Numbered.collaborators false wrapping))))
                256) as [Hexit Hstatus].
    + vm_compute; reflexivity.
    + split; [rewrite Hexit; reflexivity | apply Hstatus; lia].
Defined.

Lemma no_file_begins_after_interrupt_witness :
  let w := disk [("a.xml", RegularFile "stop"); ("b.xml", RegularFile "fail")] in
  let run := BenchExec.start ["benchexec"; "a.xml"; "b.xml"] (boot w) in
  snd run = Returns 0 /\ return_codes (trace (fst run)) = [0].
Proof.
  intros w run. subst run.
  pose (cfg := parsed ["a.xml"; "b.xml"] ["a.xml"; "b.xml"]).
  rewrite (no_file_begins_after_interrupt ["benchexec"; "a.xml"; "b.xml"] (boot w) w cfg
             ["a.xml"] ["b.xml"]
             (fst (BenchExec.run_files ["a.xml"] 0 (ready cfg w (boot w)))) 0).
  - vm_compute. split; reflexivity.
  - vm_compute; reflexivity.
  - intros f [<-|[<-|[]]]; vm_compute; reflexivity.
  - vm_compute; reflexivity.
  - vm_compute; reflexivity.
  - vm_compute; reflexivity.
Defined.

Lemma failing_benchmark_ends_start_witness :
  let w := disk [("a.xml", RegularFile "fail"); ("b.xml", RegularFile "crash");
                 ("c.xml", RegularFile "ok")] in
  let run := BenchExec.start ["benchexec"; "a.xml"; "b.xml"; "c.xml"] (boot w) in
  snd run = Raises (OtherError "tool not found") /\
  return_codes (trace (fst run)) = [1].
Proof.
  intros w run. subst run.
  pose (cfg := parsed ["a.xml"; "b.xml"; "c.xml"] ["a.xml"; "b.xml"; "c.xml"]).
  pose (s1 := fst (BenchExec.run_files ["a.xml"] 0 (ready cfg w (boot w)))).
  rewrite (failing_benchmark_ends_start ["benchexec"; "a.xml"; "b.xml"; "c.xml"]
             (boot w) w cfg ["a.xml"] "b.xml" ["c.xml"] s1
             (fst (BenchExec.execute_benchmark "b.xml"
                     (record (Logging DEBUG "Benchmark 'b.xml' is started.") s1)))
             1 (OtherError "tool not found")).
  - vm_compute. split; reflexivity.
  - vm_compute; reflexivity.
  - intros f [<-|[<-|[<-|[]]]]; vm_compute; reflexivity.
  - vm_compute; reflexivity.
  - vm_compute; reflexivity.
  - vm_compute; reflexivity.
  - vm_compute; reflexivity.
Defined.

Lemma failed_commit_is_only_logged_witness :
  let cfg := parsed ["--commit"; "a.xml"] ["a.xml"] in
  let b : OutputHandler :=
    {| log_folder := "results/a.xml.logfiles"; run_sets := ["fail"] |} in
  let s := {| world := disk [("results/a.xml.logfiles", Directory ["run.log"])];
              executor := Some scripted; config := Some cfg; trace := [] |} in
  let run := IO.bind (BenchExec.commit_results cfg b) (fun _ => ret 1) s in
  snd run = Returns 1 /\
  In (Logging WARNING "Could not add files to git repository: not a git repository")
     (trace (fst run)).
Proof.
  intros cfg b s run. subst run.
  rewrite (failed_commit_is_only_logged cfg b s (world s)
             (OSError "not a git repository") 1).
  - vm_compute. split; [reflexivity | right; left; reflexivity].
  - vm_compute; reflexivity.
  - vm_compute; reflexivity.
  - vm_compute; reflexivity.
Defined.

Lemma interrupt_suppresses_commit_witness :
  let cfg := parsed ["--commit"; "a.xml"] ["a.xml"] in
  let w := disk [("a.xml", RegularFile "stop"); ("results/.git", Directory [])] in
  let s := {| world := w; executor := Some scripted; config := Some cfg; trace := [] |} in
  let run := BenchExec.execute_benchmark "a.xml" s in
  commit cfg = true /\
  snd run = Returns 0 /\
  stopped_by_interrupt (world (fst run)) = true /\
  List.length (trace (fst run)) = 5%nat.
Proof.
  intros cfg w s run. subst run.
  pose (b := {| log_folder := "results/a.xml.logfiles"; run_sets := ["stop"] |}).
  pose (w4 := fst (new_output_handler b "in memory" w)).
  pose (w5 := set_stopped_by_interrupt true w4).
  rewrite (interrupt_suppresses_commit "a.xml" s cfg scripted b "in memory" b
             w w w w4 w5 (fst (rmdir "results/a.xml.logfiles" w5)) 0 (Returns tt)).
  - vm_compute. repeat split.
  - vm_compute; reflexivity.
  - vm_compute; reflexivity.
  - vm_compute; reflexivity.
  - vm_compute; reflexivity.
  - vm_compute; reflexivity.
  - vm_compute; reflexivity.
  - vm_compute; reflexivity.
  - vm_compute; reflexivity.
  - vm_compute; reflexivity.
  - vm_compute; reflexivity.
Defined.

Lemma execute_benchmark_needs_setup_witness :
  let w := disk [("a.xml", RegularFile "ok")] in
  let configured :=
    {| world := w; executor := None;
       config := Some (parsed ["a.xml"] ["a.xml"]); trace := [] |} in
  snd (BenchExec.execute_benchmark "a.xml" (boot w))
  = Raises (AttributeError "'BenchExec' object has no attribute 'config'") /\
  snd (BenchExec.execute_benchmark "a.xml" configured)
  = Raises (AttributeError "'NoneType' object has no attribute 'init'") /\
  trace (fst (BenchExec.execute_benchmark "a.xml" configured)) = [].
Proof.
  intros w configured. split; [|split].
  - rewrite (proj1 (execute_benchmark_needs_setup "a.xml" (boot w))); reflexivity.
  - rewrite (proj1 (proj2 (execute_benchmark_needs_setup "a.xml" configured))
               (parsed ["a.xml"] ["a.xml"]) w
               {| log_folder := "results/a.xml.logfiles"; run_sets := ["ok"] |});
      first [reflexivity | vm_compute; reflexivity].
  - apply (proj2 (proj2 (execute_benchmark_needs_setup "a.xml" configured))
             (fst (BenchExec.execute_benchmark "a.xml" configured))
             (snd (BenchExec.execute_benchmark "a.xml" configured)));
      vm_compute; reflexivity.
Defined.

Lemma stop_sets_flag_then_forwards_witness :
  let loaded := {| world := disk []; executor := Some scripted; config := None;
                   trace := [] |} in
  observed (BenchExec.stop (boot (disk []))) = ([], true, Returns tt) /\
  observed (BenchExec.stop loaded) = ([ExecutorStop], true, Returns tt).
Proof.
  intros loaded. split.
  - rewrite (proj1 (proj1 (stop_sets_flag_then_forwards (boot (disk []))) eq_refl)).
    reflexivity.
  - rewrite (proj2 (stop_sets_flag_then_forwards loaded) scripted
               (set_stopped_by_interrupt true (disk [])) (Returns tt));
      reflexivity.
Defined.

Lemma start_sets_up_instance_witness :
  let w := disk [("a.xml", RegularFile "crash"); ("results/", Directory [])] in
  let argv := ["benchexec"; "a.xml"] in
  let s := boot w in
  executor (fst (BenchExec.start argv s)) = Some scripted /\
  config (fst (BenchExec.start argv s)) = Some (parsed ["a.xml"] ["a.xml"]).
Proof.
  intros w argv s.
  destruct (start_sets_up_instance argv s (fst (BenchExec.start argv s)) w
              (parsed ["a.xml"] ["a.xml"]) (snd (BenchExec.start argv s)))
    as (Hexecutor & Hconfig & _).
  - vm_compute; reflexivity.
  - intros f [<-|[]]; vm_compute; reflexivity.
  - vm_compute; reflexivity.
  - split; [exact Hexecutor | rewrite Hconfig; vm_compute; reflexivity].
Defined.

Lemma every_executor_call_is_cleaned_up_witness :
  let w := disk [("a.xml", RegularFile "fail"); ("b.xml", RegularFile "interrupt");
                 ("c.xml", RegularFile "ok")] in
  let run := main false (Some ["benchexec"; "a.xml"; "b.xml"; "c.xml"]) (boot w) in
  executor_calls (trace (fst run)) = 2%nat /\
  removal_attempts (trace (fst run)) = 2%nat.
Proof.
  intros w run.
  pose proof (every_executor_call_is_cleaned_up false
                (Some ["benchexec"; "a.xml"; "b.xml"; "c.xml"]) (boot w)
                (fst run) (snd run)) as Hbalance.
  assert (Hcalls : executor_calls (trace (fst run)) = 2%nat) by (vm_compute; reflexivity).
  split; [exact Hcalls|].
  rewrite Hcalls in Hbalance. cbn [boot trace executor_calls removal_attempts filter
                                   List.length] in Hbalance.
  symmetry. rewrite Nat.add_0_r in Hbalance. apply Hbalance.
  subst run. now destruct (main false (Some ["benchexec"; "a.xml"; "b.xml"; "c.xml"]) (boot w)).
Defined.

Lemma start_returns_first_failure_witness :
  let w := disk [("a.xml", RegularFile "0"); ("b.xml", RegularFile "2");
                 ("c.xml", RegularFile "1")] in
  let run := @BenchExec.start _ Numbered.collaborators
               ["benchexec"; "a.xml"; "b.xml"; "c.xml"] (boot w) in
  snd run = Returns 2 /\
  exists codes,
    return_codes (trace (fst run)) = codes /\
    2 = first_failure codes /\
    (forall before rc after,
       codes = (before ++ rc :: after)%list ->
       Forall (fun c => c = 0) before -> rc <> 0 -> 2 = rc).
Proof.
  intros w run. split; [vm_compute; reflexivity|].
  apply (@start_returns_first_failure _ Numbered.collaborators
           ["benchexec"; "a.xml"; "b.xml"; "c.xml"] (boot w) (fst run) 2).
  vm_compute; reflexivity.
Defined.
